(** * ResearchMateBackend: the REST handlers of [backend/main.py]

    A shallow embedding of the FastAPI handlers over an explicit model of
    the two stores they act on: the SQLite database behind the SQLAlchemy
    session (tables [users], [pdfs], [summaries]) and the local directory
    [storage/] that holds the uploaded binaries.

    Every handler is a function from the world before the request to a
    result (the returned object or the raised exception) and the world
    after it.  Python [int] is [Z], [str] is [string], an uploaded binary
    is a [list byte]; [Optional[str]] is [option string].  The integers of
    the database are signed 64-bit: a Python [int] outside that range
    cannot be bound to a query, and the driver raises [OverflowError]. *)

From Stdlib Require Import ZArith.
From Stdlib.Strings Require Import Byte.
From stdpp Require Import gmap strings list fin_maps.

Local Open Scope string_scope.
Local Open Scope list_scope.
Local Open Scope Z_scope.

(** ** Persistence records (main.py 25-47) *)

(** [class User(Base)]: the columns are only ever written by [create_user]
    and [update_user], which store validated [str] values. *)
Module User.
Record t := mk { id : Z; name : string; email : string; password : string }.
End User.

(** [class PDF(Base)] *)
Module PDF.
Record t := mk { id : Z; user_id : Z; fileName : string; storage_path : string }.
End PDF.

(** [class Summary(Base)]; [created_at] is a timestamp. *)
Module Summary.
Record t := mk { id : Z; pdf_id : Z; summarize_text : string; created_at : Z }.
End Summary.

(** ** Data contracts (main.py 65-80, 141-145, 191-197) *)

Module UserCreate.
Record t := mk { name : string; email : string; password : string }.
End UserCreate.

(** [UserResponse] has the three fields [id], [name], [email] and is built
    from the attributes of an ORM row ([from_attributes=True]). *)
Module UserResponse.
Record t := mk { id : Z; name : string; email : string }.

Definition from_attributes (u : User.t) : t :=
  {| id := User.id u; name := User.name u; email := User.email u |}.
End UserResponse.

Module UserUpdate.
Record t := mk { name : option string; email : option string;
                 password : option string }.
End UserUpdate.

Module PDFResponse.
Record t := mk { id : Z; fileName : string }.

Definition from_attributes (p : PDF.t) : t :=
  {| id := PDF.id p; fileName := PDF.fileName p |}.
End PDFResponse.

(** A Python value held by a field of a request model. *)
Inductive PyValue :=
| PyInt (z : Z)
| PyStr (s : string).

(** [SummaryRequest] declares [pdf_id] and [storage_id]; reading any other
    attribute of the model raises [AttributeError]. *)
Module SummaryRequest.
Record t := mk { pdf_id : Z; storage_id : string }.

Definition getattr (r : t) (attr : string) : option PyValue :=
  if String.eqb attr "pdf_id" then Some (PyInt (pdf_id r))
  else if String.eqb attr "storage_id" then Some (PyStr (storage_id r))
  else None.
End SummaryRequest.

Module SummaryResponse.
Record t := mk { pdf_id : Z; summary : string }.
End SummaryResponse.

(** The multipart upload: client-supplied file name and the binary. *)
Module UploadFile.
Record t := mk { filename : string; file : list byte }.
End UploadFile.

(** [FileResponse(path=..., media_type=..., filename=...)] *)
Module FileResponse.
Record t := mk { path : string; media_type : string; filename : string }.
End FileResponse.

(** What the client receives when a [FileResponse] is sent. *)
Module Download.
Record t := mk { content : list byte; media_type : string; filename : string }.
End Download.

(** ** Outcomes *)

(** Exceptions that no handler catches; the framework answers 500. *)
Inductive PyExn :=
| IntegrityError
| AttributeError
| RuntimeError
| OverflowError
| ResponseValidationError.

Inductive Error :=
| HTTPException (status_code : Z) (detail : string)
| Unhandled (e : PyExn).

Inductive Result (A : Type) :=
| Ok (a : A)
| Err (e : Error).
Arguments Ok {A} a.
Arguments Err {A} e.

(** ** The world: database tables and the blob directory *)

(** Tables are kept in rowid order, the order in which SQLite scans them
    for a query without ORDER BY; [storage] maps a path inside
    [storage/] to the bytes of the file. *)
Record World := mkWorld {
  users : list User.t;
  pdfs : list PDF.t;
  summaries : list Summary.t;
  storage : gmap string (list byte)
}.

Definition empty_world : World :=
  {| users := []; pdfs := []; summaries := []; storage := ∅ |}.

Definition Handler (A : Type) : Type := World -> Result A * World.

(** [response_model=...]: the returned object is serialised through the
    response contract; an exception passes through. *)
Definition response_model {A B : Type} (ser : A -> B) (h : Handler A) : Handler B :=
  fun w => match h w with
           | (Ok a, w') => (Ok (ser a), w')
           | (Err e, w') => (Err e, w')
           end.

(** ** Database primitives *)

(** The rowid SQLite gives to an inserted row of an INTEGER PRIMARY KEY
    table: 1 on an empty table, otherwise one more than the largest. *)
Definition next_rowid (ids : list Z) : Z :=
  match ids with
  | [] => 1
  | i :: rest => foldr Z.max i rest + 1
  end.

(** Rows of a table with an integer primary key [key]. *)
Section Table.
Context {A : Type} (key : A -> Z).

(** SELECT ... WHERE key = k, first row *)
Definition find_key (k : Z) (rows : list A) : option A :=
  List.find (fun x => key x =? k) rows.

(** DELETE ... WHERE key = k *)
Definition without_key (k : Z) (rows : list A) : list A :=
  List.filter (fun x => negb (key x =? k)) rows.

(** UPDATE ... WHERE key = k, the row becoming [y] *)
Definition replace_key (k : Z) (y : A) (rows : list A) : list A :=
  (fun x => if key x =? k then y else x) <$> rows.
End Table.

(** The integers that the SQLite driver binds to a query parameter and
    that a column holds: signed, 64 bits.  Binding any other Python [int]
    raises [OverflowError]. *)
Definition int64 (z : Z) : bool :=
  (- 2 ^ 63 <=? z) && (z <=? 2 ^ 63 - 1).

(** What [query.filter(id == k).first()] gives: a row, [None], or the
    driver's [OverflowError]. *)
Inductive Selected (A : Type) :=
| Row (x : A)
| NoRow
| BindOverflow.
Arguments Row {A} x.
Arguments NoRow {A}.
Arguments BindOverflow {A}.

(** SELECT ... WHERE key = k LIMIT 1 with [k] bound as a parameter.  A
    rowid that a row holds is an integer of the database, so the
    overflow concerns only a [k] that no row holds. *)
Definition select_by_id {A : Type} (key : A -> Z) (k : Z) (rows : list A)
  : Selected A :=
  match find_key key k rows with
  | Some x => Row x
  | None => if int64 k then NoRow else BindOverflow
  end.

(** [query.filter(id == k).first()] *)
Definition first_user (k : Z) (w : World) : Selected User.t :=
  select_by_id User.id k (users w).

Definition first_pdf (k : Z) (w : World) : Selected PDF.t :=
  select_by_id PDF.id k (pdfs w).

(** OFFSET n, for a bound [n]: a negative offset counts as 0. *)
Definition sql_offset {A : Type} (skip : Z) (rows : list A) : list A :=
  drop (Z.to_nat skip) rows.

(** LIMIT n, for a bound [n]: a negative limit is no limit at all. *)
Definition sql_limit {A : Type} (limit : Z) (rows : list A) : list A :=
  if limit <? 0 then rows else take (Z.to_nat limit) rows.

(** [query.offset(skip).limit(limit).all()]: both numbers are bound as
    parameters of the query; [None] stands for the [OverflowError] of a
    number that is no 64-bit integer. *)
Definition select_page {A : Type} (skip limit : Z) (rows : list A)
  : option (list A) :=
  if int64 skip && int64 limit
  then Some (sql_limit limit (sql_offset skip rows))
  else None.

(** The UNIQUE constraint on [users.email]. *)
Definition email_taken (e : string) (rows : list User.t) : bool :=
  existsb (fun u => String.eqb (User.email u) e) rows.

(** INSERT INTO users at commit: [None] stands for [IntegrityError]. *)
Definition insert_user (name email password : string) (w : World)
  : option (User.t * World) :=
  if email_taken email (users w) then None
  else
    let row := {| User.id := next_rowid (User.id <$> users w);
                  User.name := name; User.email := email;
                  User.password := password |} in
    Some (row, {| users := users w ++ [row]; pdfs := pdfs w;
                  summaries := summaries w; storage := storage w |}).

(** UPDATE users SET ... WHERE id = k at commit.  Only the columns whose
    value changed are written, so the UNIQUE constraint is checked only
    when the email changes, against the other rows. *)
Definition update_user_row (old new : User.t) (w : World) : option World :=
  if negb (String.eqb (User.email new) (User.email old))
     && email_taken (User.email new) (without_key User.id (User.id old) (users w))
  then None
  else Some {| users := replace_key User.id (User.id old) new (users w);
               pdfs := pdfs w; summaries := summaries w;
               storage := storage w |}.

(** DELETE FROM users WHERE id = k *)
Definition delete_user_row (k : Z) (w : World) : World :=
  {| users := without_key User.id k (users w);
     pdfs := pdfs w; summaries := summaries w; storage := storage w |}.

(** INSERT INTO pdfs: the table has no constraint that can fail. *)
Definition insert_pdf (user_id : Z) (fileName storage_path : string) (w : World)
  : PDF.t * World :=
  let row := {| PDF.id := next_rowid (PDF.id <$> pdfs w);
                PDF.user_id := user_id; PDF.fileName := fileName;
                PDF.storage_path := storage_path |} in
  (row, {| users := users w; pdfs := pdfs w ++ [row];
           summaries := summaries w; storage := storage w |}).

(** [open(path, "wb")] followed by [shutil.copyfileobj]: the file at
    [path] is created or truncated and receives the whole stream.  The
    directory [storage/] is taken to exist, as the deployment provides
    it. *)
Definition write_file (path : string) (data : list byte) (w : World) : World :=
  {| users := users w; pdfs := pdfs w; summaries := summaries w;
     storage := <[path := data]> (storage w) |}.

(** ** User handlers (main.py 85-138) *)

(** [create_user]: the row is added to the session and inserted at
    [db.commit()]; on [IntegrityError] the session is rolled back and the
    handler raises [HTTPException(400)]. *)
Definition create_user (user : UserCreate.t) : Handler User.t :=
  fun w =>
    match insert_user (UserCreate.name user) (UserCreate.email user)
                      (UserCreate.password user) w with
    | Some (db_user, w') => (Ok db_user, w')
    | None => (Err (HTTPException 400 "Email already registered"), w)
    end.

(** [read_users]: [skip] and [limit] are query parameters with the
    defaults 0 and 10. *)
Definition read_users (skip limit : option Z) : Handler (list User.t) :=
  fun w =>
    let skip := default 0 skip in
    let limit := default 10 limit in
    match select_page skip limit (users w) with
    | Some users => (Ok users, w)
    | None => (Err (Unhandled OverflowError), w)
    end.

Definition read_user (user_id : Z) : Handler User.t :=
  fun w =>
    match first_user user_id w with
    | BindOverflow => (Err (Unhandled OverflowError), w)
    | NoRow => (Err (HTTPException 404 "User not Found"), w)
    | Row user => (Ok user, w)
    end.

(** [update_user]: the three assignments keep the stored value where the
    request field is [None].  The [IntegrityError] that [db.commit()] can
    raise is not caught; the session is then rolled back when the request
    ends. *)
Definition update_user (user_id : Z) (user : UserUpdate.t) : Handler User.t :=
  fun w =>
    match first_user user_id w with
    | BindOverflow => (Err (Unhandled OverflowError), w)
    | NoRow => (Err (HTTPException 404 "User not Found"), w)
    | Row db_user =>
        let db_user' :=
          {| User.id := User.id db_user;
             User.name := default (User.name db_user) (UserUpdate.name user);
             User.email := default (User.email db_user) (UserUpdate.email user);
             User.password :=
               default (User.password db_user) (UserUpdate.password user) |} in
        match update_user_row db_user db_user' w with
        | Some w' => (Ok db_user', w')
        | None => (Err (Unhandled IntegrityError), w)
        end
    end.

(** [delete_user]: the body [user] is a parameter of the handler; the
    returned object keeps the attributes loaded before the deletion. *)
Definition delete_user (user_id : Z) (user : UserUpdate.t) : Handler User.t :=
  fun w =>
    match first_user user_id w with
    | BindOverflow => (Err (Unhandled OverflowError), w)
    | NoRow => (Err (HTTPException 404 "User not Found"), w)
    | Row db_user => (Ok db_user, delete_user_row user_id w)
    end.

(** ** PDF handlers (main.py 148-188) *)

(** [f"storage/{file_id}.pdf"] *)
Definition storage_path_of (file_id : string) : string :=
  "storage/" +:+ file_id +:+ ".pdf".

(** [create_pdf]: [file_id] is the string of the [uuid.uuid4()] drawn by
    this call. *)
Definition create_pdf (file : UploadFile.t) (file_id : string) : Handler PDF.t :=
  fun w =>
    let path := storage_path_of file_id in
    let w1 := write_file path (UploadFile.file file) w in
    let '(pdf, w2) := insert_pdf 1 (UploadFile.filename file) path w1 in
    (Ok pdf, w2).

Definition read_pdfs (skip limit : option Z) : Handler (list PDF.t) :=
  fun w =>
    let skip := default 0 skip in
    let limit := default 10 limit in
    match select_page skip limit (pdfs w) with
    | Some pdfs => (Ok pdfs, w)
    | None => (Err (Unhandled OverflowError), w)
    end.

Definition read_pdf (id : Z) : Handler PDF.t :=
  fun w =>
    match first_pdf id w with
    | BindOverflow => (Err (Unhandled OverflowError), w)
    | NoRow => (Err (HTTPException 404 "PDF not Found"), w)
    | Row pdf => (Ok pdf, w)
    end.

Definition get_pdf (id : Z) : Handler FileResponse.t :=
  fun w =>
    match first_pdf id w with
    | BindOverflow => (Err (Unhandled OverflowError), w)
    | NoRow => (Err (HTTPException 404 "PDF not Found"), w)
    | Row pdf =>
        (Ok {| FileResponse.path := PDF.storage_path pdf;
               FileResponse.media_type := "application/pdf";
               FileResponse.filename := PDF.fileName pdf |}, w)
    end.

(** Sending a [FileResponse] reads the file at its path; a missing file is
    a [RuntimeError] raised while the response is sent. *)
Definition send_file (r : FileResponse.t) : Handler Download.t :=
  fun w =>
    match storage w !! FileResponse.path r with
    | Some data =>
        (Ok {| Download.content := data;
               Download.media_type := FileResponse.media_type r;
               Download.filename := FileResponse.filename r |}, w)
    | None => (Err (Unhandled RuntimeError), w)
    end.

(** ** Summary handlers (main.py 199-212) *)

(** [return summary_request.summary] *)
Definition create_summary (summary_request : SummaryRequest.t) : Handler PyValue :=
  fun w =>
    match SummaryRequest.getattr summary_request "summary" with
    | Some v => (Ok v, w)
    | None => (Err (Unhandled AttributeError), w)
    end.

(** A bare [return]: the handler returns [None]. *)
Definition get_summary (pdf_id : Z) : Handler (option SummaryResponse.t) :=
  fun w => (Ok None, w).

(** ** The endpoints, as the client sees them *)

Definition POST_users (body : UserCreate.t) : Handler UserResponse.t :=
  response_model UserResponse.from_attributes (create_user body).

Definition GET_users (skip limit : option Z) : Handler (list UserResponse.t) :=
  response_model (fmap UserResponse.from_attributes) (read_users skip limit).

Definition GET_user (user_id : Z) : Handler UserResponse.t :=
  response_model UserResponse.from_attributes (read_user user_id).

Definition PUT_user (user_id : Z) (body : UserUpdate.t) : Handler UserResponse.t :=
  response_model UserResponse.from_attributes (update_user user_id body).

Definition DELETE_user (user_id : Z) (body : UserUpdate.t) : Handler UserResponse.t :=
  response_model UserResponse.from_attributes (delete_user user_id body).

Definition POST_pdf_upload (file : UploadFile.t) (file_id : string)
  : Handler PDFResponse.t :=
  response_model PDFResponse.from_attributes (create_pdf file file_id).

Definition GET_pdfs (skip limit : option Z) : Handler (list PDFResponse.t) :=
  response_model (fmap PDFResponse.from_attributes) (read_pdfs skip limit).

Definition GET_pdf (id : Z) : Handler PDFResponse.t :=
  response_model PDFResponse.from_attributes (read_pdf id).

(** [response_model=SummaryResponse] on a value that the handler returns:
    the value is validated against the contract and a value that does not
    fit raises [ResponseValidationError]. *)
Definition response_model_validated {A B : Type} (validate : A -> option B)
    (h : Handler A) : Handler B :=
  fun w => match h w with
           | (Ok a, w') =>
               match validate a with
               | Some b => (Ok b, w')
               | None => (Err (Unhandled ResponseValidationError), w')
               end
           | (Err e, w') => (Err e, w')
           end.

(** An integer or a string has neither [pdf_id] nor [summary]: it is no
    [SummaryResponse]. *)
Definition summary_of_value (v : PyValue) : option SummaryResponse.t :=
  match v with
  | PyInt _ => None
  | PyStr _ => None
  end.

(** [None] is no [SummaryResponse]; a [SummaryResponse] is one. *)
Definition summary_of_optional (r : option SummaryResponse.t)
  : option SummaryResponse.t := r.

Definition POST_summary (body : SummaryRequest.t) : Handler SummaryResponse.t :=
  response_model_validated summary_of_value (create_summary body).

Definition GET_summary (pdf_id : Z) : Handler SummaryResponse.t :=
  response_model_validated summary_of_optional (get_summary pdf_id).

(** A returned [Response] object is sent as it is, whatever the
    [response_model] of the route. *)
Definition GET_pdf_download (id : Z) : Handler Download.t :=
  fun w =>
    match get_pdf id w with
    | (Ok r, w') => send_file r w'
    | (Err e, w') => (Err e, w')
    end.

(** ** Well-formed tables *)

(** [id] is the primary key of [users] and of [pdfs]; [email] is UNIQUE. *)
Record wf (w : World) : Prop := mk_wf {
  wf_user_ids : NoDup (User.id <$> users w);
  wf_user_emails : NoDup (User.email <$> users w);
  wf_pdf_ids : NoDup (PDF.id <$> pdfs w)
}.

(** Two worlds that differ at most in the passwords stored in [users]. *)
Definition same_public_user (u v : User.t) : Prop :=
  User.id u = User.id v /\ User.name u = User.name v /\ User.email u = User.email v.

Definition differ_in_passwords (w1 w2 : World) : Prop :=
  Forall2 same_public_user (users w1) (users w2)
  /\ pdfs w1 = pdfs w2 /\ summaries w1 = summaries w2
  /\ storage w1 = storage w2.

(** ** Sample data *)

Definition alice : User.t :=
  {| User.id := 1; User.name := "A"; User.email := "a@x.com"; User.password := "p" |}.

Definition bob : User.t :=
  {| User.id := 2; User.name := "B"; User.email := "b@x.com"; User.password := "q" |}.

Definition two_users : World :=
  {| users := [alice; bob]; pdfs := []; summaries := []; storage := ∅ |}.

Definition two_users_other_passwords : World :=
  {| users := [User.mk 1 "A" "a@x.com" "hunter2"; User.mk 2 "B" "b@x.com" ""];
     pdfs := []; summaries := []; storage := ∅ |}.

(** A PDF row whose file is gone from the disk. *)
Definition lost_blob : World :=
  {| users := []; pdfs := [PDF.mk 1 1 "paper.pdf" "storage/6f1c.pdf"];
     summaries := []; storage := ∅ |}.

Definition paper : UploadFile.t :=
  {| UploadFile.filename := "paper.pdf"; UploadFile.file := [x25; x50; x44; x46] |}.

(** ** The application: one request after another *)

(** The routes registered on [app] (main.py 85, 103, 109, 118, 131, 148,
    164, 170, 179, 199, 208).  An upload carries the identifier that its
    [uuid.uuid4()] call draws. *)
Inductive Request :=
| PostUsers (user : UserCreate.t)
| GetUsers (skip limit : option Z)
| GetUser (user_id : Z)
| PutUser (user_id : Z) (user : UserUpdate.t)
| DeleteUser (user_id : Z) (user : UserUpdate.t)
| PostPdfUpload (file : UploadFile.t) (file_id : string)
| GetPdfs (skip limit : option Z)
| GetPdf (id : Z)
| GetPdfDownload (id : Z)
| PostSummary (summary_request : SummaryRequest.t)
| GetSummary (pdf_id : Z).

(** The world left by one request. *)
Definition serve (r : Request) (w : World) : World :=
  match r with
  | PostUsers user => snd (create_user user w)
  | GetUsers skip limit => snd (read_users skip limit w)
  | GetUser user_id => snd (read_user user_id w)
  | PutUser user_id user => snd (update_user user_id user w)
  | DeleteUser user_id user => snd (delete_user user_id user w)
  | PostPdfUpload file file_id => snd (create_pdf file file_id w)
  | GetPdfs skip limit => snd (read_pdfs skip limit w)
  | GetPdf id => snd (read_pdf id w)
  | GetPdfDownload id => snd (GET_pdf_download id w)
  | PostSummary summary_request => snd (create_summary summary_request w)
  | GetSummary pdf_id => snd (get_summary pdf_id w)
  end.

(** The world left by a sequence of requests, served in order. *)
Definition run (rs : list Request) (w : World) : World :=
  foldl (fun w r => serve r w) w rs.

(** Every row of [pdfs] has its binary in the blob directory. *)
Definition blobs_present (w : World) : Prop :=
  forall p, p ∈ pdfs w -> is_Some (storage w !! PDF.storage_path p).

(** Every row of [pdfs] is as [create_pdf] writes it. *)
Definition uploaded_rows (w : World) : Prop :=
  forall p, p ∈ pdfs w ->
    PDF.user_id p = 1
    /\ exists file_id, PDF.storage_path p = storage_path_of file_id.

(** Every rowid of [users] and of [pdfs] lies between 1 and [n]. *)
Definition ids_within (n : Z) (w : World) : Prop :=
  (forall k, k ∈ User.id <$> users w -> 1 <= k <= n)
  /\ (forall k, k ∈ PDF.id <$> pdfs w -> 1 <= k <= n).

(** * Properties *)

(** ** Lookup by primary key *)

Section Keyed.
Context {A : Type} (key : A -> Z).

Lemma find_key_None (k : Z) (rows : list A) :
  find_key key k rows = None <-> k ∉ key <$> rows.
Proof.
  unfold find_key. induction rows as [|x rows IH]; simpl.
  - split; [intros _; apply not_elem_of_nil | done].
  - rewrite not_elem_of_cons. destruct (Z.eqb_spec (key x) k) as [Heq|Hne].
    + split; [done | intros [Hk _]; congruence].
    + rewrite IH. split; [intros H; split; [congruence | done] | tauto].
Qed.

Lemma find_key_Some (k : Z) (rows : list A) (x : A) :
  find_key key k rows = Some x -> x ∈ rows /\ key x = k.
Proof.
  unfold find_key. induction rows as [|y rows IH]; simpl; [done|].
  destruct (Z.eqb_spec (key y) k) as [Heq|Hne].
  - intros [= ->]. split; [left | done].
  - intros H. destruct (IH H) as [Hin Hk]. split; [by right | done].
Qed.

Lemma find_key_present (rows : list A) (x : A) :
  NoDup (key <$> rows) -> x ∈ rows -> find_key key (key x) rows = Some x.
Proof.
  unfold find_key. induction rows as [|y rows IH]; simpl.
  - intros _ H. by apply elem_of_nil in H.
  - rewrite NoDup_cons. intros [Hy Hnd] Hin.
    apply elem_of_cons in Hin as [->|Hin].
    + by rewrite Z.eqb_refl.
    + destruct (Z.eqb_spec (key y) (key x)) as [Heq|Hne]; [|by apply IH].
      exfalso. apply Hy. rewrite Heq. by apply list_elem_of_fmap_2.
Qed.

Lemma without_key_absent (k : Z) (rows : list A) :
  k ∉ key <$> rows -> without_key key k rows = rows.
Proof.
  unfold without_key. induction rows as [|y rows IH]; simpl; [done|].
  rewrite not_elem_of_cons. intros [Hk Hrest].
  destruct (Z.eqb_spec (key y) k) as [Heq|Hne]; [congruence|].
  simpl. by rewrite IH.
Qed.

Lemma elem_of_without_key (k : Z) (rows : list A) (x : A) :
  x ∈ without_key key k rows <-> x ∈ rows /\ key x <> k.
Proof.
  unfold without_key. rewrite !list_elem_of_In, filter_In.
  destruct (Z.eqb_spec (key x) k); simpl; intuition congruence.
Qed.

Lemma without_key_sublist (k : Z) (rows : list A) :
  without_key key k rows `sublist_of` rows.
Proof.
  unfold without_key. induction rows as [|x rows IH]; simpl; [constructor|].
  destruct (key x =? k); simpl; by constructor.
Qed.

Lemma without_key_split (rows : list A) (x : A) :
  NoDup (key <$> rows) -> x ∈ rows ->
  exists l1 l2, rows = l1 ++ x :: l2 /\ without_key key (key x) rows = l1 ++ l2.
Proof.
  unfold without_key. induction rows as [|y rows IH]; simpl.
  - intros _ H. by apply elem_of_nil in H.
  - rewrite NoDup_cons. intros [Hy Hnd] Hin.
    apply elem_of_cons in Hin as [->|Hin].
    + exists [], rows. rewrite Z.eqb_refl. simpl. split; [done|].
      by apply without_key_absent.
    + destruct (IH Hnd Hin) as (l1 & l2 & Hrows & Hdel).
      exists (y :: l1), l2. split; [by rewrite Hrows|].
      destruct (Z.eqb_spec (key y) (key x)) as [Heq|Hne].
      * exfalso. apply Hy. rewrite Heq. by apply list_elem_of_fmap_2.
      * simpl. by rewrite Hdel.
Qed.

Lemma find_key_app_fresh (rows : list A) (x : A) :
  key x ∉ key <$> rows -> find_key key (key x) (rows ++ [x]) = Some x.
Proof.
  unfold find_key. induction rows as [|y rows IH]; simpl.
  - intros _. by rewrite Z.eqb_refl.
  - rewrite not_elem_of_cons. intros [Hne Hrest].
    destruct (Z.eqb_spec (key y) (key x)) as [Heq|_]; [congruence | by apply IH].
Qed.
End Keyed.

(** ** Queries with a bound id *)

Lemma int64_spec (z : Z) : int64 z = true <-> - 2 ^ 63 <= z <= 2 ^ 63 - 1.
Proof. unfold int64. rewrite andb_true_iff, !Z.leb_le. tauto. Qed.

Example int64_bounds :
  int64 (-9223372036854775808) = true
  /\ int64 9223372036854775807 = true
  /\ int64 (-9223372036854775809) = false
  /\ int64 9223372036854775808 = false.
Proof. repeat split. Qed.

Section Selecting.
Context {A : Type} (key : A -> Z).

Lemma select_by_id_found (k : Z) (rows : list A) (x : A) :
  find_key key k rows = Some x -> select_by_id key k rows = Row x.
Proof. intros H. unfold select_by_id. by rewrite H. Qed.

Lemma select_by_id_Row (k : Z) (rows : list A) (x : A) :
  select_by_id key k rows = Row x -> find_key key k rows = Some x.
Proof.
  unfold select_by_id. destruct (find_key key k rows); [by intros [= ->]|].
  by destruct (int64 k).
Qed.

Lemma select_by_id_absent (k : Z) (rows : list A) :
  k ∉ key <$> rows ->
  select_by_id key k rows = if int64 k then NoRow else BindOverflow.
Proof.
  intros H. apply (find_key_None key) in H. unfold select_by_id. by rewrite H.
Qed.

Lemma select_by_id_present (rows : list A) (x : A) :
  NoDup (key <$> rows) -> x ∈ rows -> select_by_id key (key x) rows = Row x.
Proof. intros Hnd Hin. by apply select_by_id_found, find_key_present. Qed.

(** On a table whose rowids are 64-bit integers, selecting is binding
    first and looking up afterwards. *)
Lemma select_by_id_bind_first (k : Z) (rows : list A) :
  Forall (fun x => int64 (key x) = true) rows ->
  select_by_id key k rows
  = if int64 k
    then match find_key key k rows with Some x => Row x | None => NoRow end
    else BindOverflow.
Proof.
  intros Hall. unfold select_by_id.
  destruct (find_key key k rows) as [x|] eqn:Hfind; [|done].
  apply (find_key_Some key) in Hfind as [Hin <-].
  rewrite Forall_forall in Hall. by rewrite (Hall x Hin).
Qed.
End Selecting.

Lemma foldr_max_ge (i : Z) (rest : list Z) :
  i <= foldr Z.max i rest /\ forall k, k ∈ rest -> k <= foldr Z.max i rest.
Proof.
  induction rest as [|j rest [IHi IHk]]; simpl.
  - split; [lia|]. intros k H. by apply elem_of_nil in H.
  - split; [lia|]. intros k H. apply elem_of_cons in H as [->|H]; [lia|].
    specialize (IHk k H). lia.
Qed.

(** A new rowid is larger than every rowid of the table. *)
Lemma next_rowid_above (ids : list Z) (k : Z) : k ∈ ids -> k < next_rowid ids.
Proof.
  destruct ids as [|i rest]; simpl.
  - intros H. by apply elem_of_nil in H.
  - destruct (foldr_max_ge i rest) as [Hi Hk].
    intros H. apply elem_of_cons in H as [->|H]; [lia|].
    specialize (Hk k H). lia.
Qed.

Lemma next_rowid_fresh (ids : list Z) : next_rowid ids ∉ ids.
Proof. intros H. apply next_rowid_above in H. lia. Qed.

Lemma email_taken_true (e : string) (rows : list User.t) :
  email_taken e rows = true <-> exists u, u ∈ rows /\ User.email u = e.
Proof.
  unfold email_taken. rewrite existsb_exists. split.
  - intros (u & Hin & Heq). exists u. split; [by apply list_elem_of_In|].
    by apply String.eqb_eq.
  - intros (u & Hin & Heq). exists u. split; [by apply list_elem_of_In|].
    by apply String.eqb_eq.
Qed.

Lemma email_taken_false (e : string) (rows : list User.t) :
  email_taken e rows = false <-> e ∉ User.email <$> rows.
Proof.
  rewrite <- not_true_iff_false, email_taken_true, list_elem_of_fmap.
  split; intros H; contradict H.
  - destruct H as (u & -> & Hin). by exists u.
  - destruct H as (u & Hin & <-). by exists u.
Qed.

(** ** Sanity checks against the example of the specification *)

Example create_then_repeat :
  POST_users (UserCreate.mk "A" "a@x.com" "p") empty_world
  = (Ok (UserResponse.mk 1 "A" "a@x.com"),
     {| users := [alice]; pdfs := []; summaries := []; storage := ∅ |})
  /\ fst (POST_users (UserCreate.mk "A" "a@x.com" "p")
            {| users := [alice]; pdfs := []; summaries := []; storage := ∅ |})
     = Err (HTTPException 400 "Email already registered").
Proof. split; reflexivity. Qed.

Lemma wf_empty_world : wf empty_world.
Proof. split; simpl; apply NoDup_nil_2. Qed.

Lemma wf_two_users : wf two_users.
Proof.
  split; simpl; apply (bool_decide_unpack _); by vm_compute.
Qed.

(** ** Users: create *)

(** C1. Creating a user whose email is the email of a user already in the
    store fails with [HTTPException(400, "Email already registered")], at
    the handler and at the endpoint, and the world after the failed call
    is the world before it: no row is added and every stored row,
    the one holding that email included, keeps all its fields. *)
Theorem create_user_duplicate_email
    (w : World) (user : UserCreate.t) (prior : User.t) :
  prior ∈ users w ->
  User.email prior = UserCreate.email user ->
  create_user user w = (Err (HTTPException 400 "Email already registered"), w)
  /\ POST_users user w = (Err (HTTPException 400 "Email already registered"), w)
  /\ prior ∈ users (snd (POST_users user w))
  /\ length (users (snd (POST_users user w))) = length (users w).
Proof.
  intros Hin Hemail.
  assert (Hc : create_user user w
               = (Err (HTTPException 400 "Email already registered"), w)).
  { unfold create_user, insert_user.
    assert (Ht : email_taken (UserCreate.email user) (users w) = true)
      by (apply email_taken_true; eauto).
    by rewrite Ht. }
  assert (Hp : POST_users user w
               = (Err (HTTPException 400 "Email already registered"), w))
    by (unfold POST_users, response_model; by rewrite Hc).
  rewrite Hp. simpl. done.
Qed.

Lemma create_user_duplicate_email_witness :
  alice ∈ users two_users
  /\ POST_users (UserCreate.mk "Z" "a@x.com" "s") two_users
     = (Err (HTTPException 400 "Email already registered"), two_users).
Proof.
  split; [left|].
  apply (create_user_duplicate_email two_users
           (UserCreate.mk "Z" "a@x.com" "s") alice); [left | reflexivity].
Defined.

(** ** Users and PDFs: read by id *)

Lemma read_user_absent (w : World) (k : Z) :
  k ∉ User.id <$> users w ->
  read_user k w
  = (Err (if int64 k then HTTPException 404 "User not Found"
          else Unhandled OverflowError), w).
Proof.
  intros H. unfold read_user, first_user.
  rewrite (select_by_id_absent User.id k (users w) H). by destruct (int64 k).
Qed.

Lemma read_user_present (w : World) (u : User.t) :
  NoDup (User.id <$> users w) -> u ∈ users w ->
  read_user (User.id u) w = (Ok u, w).
Proof.
  intros Hnd Hin. unfold read_user, first_user.
  by rewrite (select_by_id_present User.id (users w) u Hnd Hin).
Qed.

Lemma read_pdf_absent (w : World) (k : Z) :
  k ∉ PDF.id <$> pdfs w ->
  read_pdf k w
  = (Err (if int64 k then HTTPException 404 "PDF not Found"
          else Unhandled OverflowError), w).
Proof.
  intros H. unfold read_pdf, first_pdf.
  rewrite (select_by_id_absent PDF.id k (pdfs w) H). by destruct (int64 k).
Qed.

Lemma read_pdf_present (w : World) (p : PDF.t) :
  NoDup (PDF.id <$> pdfs w) -> p ∈ pdfs w ->
  read_pdf (PDF.id p) w = (Ok p, w).
Proof.
  intros Hnd Hin. unfold read_pdf, first_pdf.
  by rewrite (select_by_id_present PDF.id (pdfs w) p Hnd Hin).
Qed.

(** C6, with the range of the database's integers.  For an id that is a
    signed 64-bit integer, [read_user] and [read_pdf] raise
    [HTTPException(404)] when no row has the id; when a row of a
    well-formed table has the requested id, they return that row (the
    endpoint answers its response contract).  The world is left as it
    was. *)
Theorem read_by_id_spec (w : World) (k : Z) :
  (int64 k = true -> k ∉ User.id <$> users w ->
     read_user k w = (Err (HTTPException 404 "User not Found"), w)
     /\ GET_user k w = (Err (HTTPException 404 "User not Found"), w))
  /\ (int64 k = true -> k ∉ PDF.id <$> pdfs w ->
     read_pdf k w = (Err (HTTPException 404 "PDF not Found"), w)
     /\ GET_pdf k w = (Err (HTTPException 404 "PDF not Found"), w))
  /\ (forall u, wf w -> u ∈ users w -> User.id u = k ->
     read_user k w = (Ok u, w)
     /\ GET_user k w = (Ok (UserResponse.from_attributes u), w))
  /\ (forall p, wf w -> p ∈ pdfs w -> PDF.id p = k ->
     read_pdf k w = (Ok p, w)
     /\ GET_pdf k w = (Ok (PDFResponse.from_attributes p), w)).
Proof.
  split; [|split; [|split]].
  - intros Hk H. pose proof (read_user_absent w k H) as E. rewrite Hk in E.
    split; [done|]. unfold GET_user, response_model. by rewrite E.
  - intros Hk H. pose proof (read_pdf_absent w k H) as E. rewrite Hk in E.
    split; [done|]. unfold GET_pdf, response_model. by rewrite E.
  - intros u Hwf Hin <-.
    pose proof (read_user_present w u (wf_user_ids w Hwf) Hin) as E.
    split; [done|]. unfold GET_user, response_model. by rewrite E.
  - intros p Hwf Hin <-.
    pose proof (read_pdf_present w p (wf_pdf_ids w Hwf) Hin) as E.
    split; [done|]. unfold GET_pdf, response_model. by rewrite E.
Qed.

Lemma read_by_id_spec_witness :
  GET_user 7 two_users = (Err (HTTPException 404 "User not Found"), two_users)
  /\ GET_pdf 7 two_users = (Err (HTTPException 404 "PDF not Found"), two_users)
  /\ GET_user 2 two_users = (Ok (UserResponse.mk 2 "B" "b@x.com"), two_users).
Proof.
  destruct (read_by_id_spec two_users 7) as (Hu & Hp & _).
  destruct (read_by_id_spec two_users 2) as (_ & _ & Hok & _).
  split; [|split].
  - apply Hu; [reflexivity|]. simpl. rewrite !not_elem_of_cons.
    repeat split; try lia. apply not_elem_of_nil.
  - apply Hp; [reflexivity|]. simpl. apply not_elem_of_nil.
  - apply (Hok bob); [apply wf_two_users | right; left | reflexivity].
Defined.

(** C6, as stated for every id, fails: 2^63 is the id of no row, and the
    two reads end with the driver's unhandled [OverflowError], not with
    [HTTPException(404)]. *)
Lemma read_by_id_overflow :
  (9223372036854775808 ∉ User.id <$> users two_users)
  /\ (9223372036854775808 ∉ PDF.id <$> pdfs two_users)
  /\ GET_user 9223372036854775808 two_users
     = (Err (Unhandled OverflowError), two_users)
  /\ GET_pdf 9223372036854775808 two_users
     = (Err (Unhandled OverflowError), two_users)
  /\ GET_user 9223372036854775808 two_users
     <> (Err (HTTPException 404 "User not Found"), two_users).
Proof.
  split; [|split; [|split; [|split]]]; try reflexivity.
  - simpl. rewrite !not_elem_of_cons. repeat split; try lia.
    apply not_elem_of_nil.
  - simpl. apply not_elem_of_nil.
  - discriminate.
Qed.

(** ** Users: delete *)

Lemma delete_user_absent (w : World) (k : Z) (body : UserUpdate.t) :
  k ∉ User.id <$> users w ->
  delete_user k body w
  = (Err (if int64 k then HTTPException 404 "User not Found"
          else Unhandled OverflowError), w).
Proof.
  intros H. unfold delete_user, first_user.
  rewrite (select_by_id_absent User.id k (users w) H). by destruct (int64 k).
Qed.

Lemma delete_user_present (w : World) (u : User.t) (body : UserUpdate.t) :
  NoDup (User.id <$> users w) -> u ∈ users w ->
  delete_user (User.id u) body w = (Ok u, delete_user_row (User.id u) w).
Proof.
  intros Hnd Hin. unfold delete_user, first_user.
  by rewrite (select_by_id_present User.id (users w) u Hnd Hin).
Qed.

(** C4, with the range of the database's integers.  [delete_user] on a
    signed 64-bit id that no row has raises [HTTPException(404)] and
    leaves the world as it was.  On the id of a row [u] of a well-formed
    table it returns [u] with the field values it had before the deletion
    (the endpoint answers them through [UserResponse]), the [users] table
    loses the row [u] and nothing else, and the other tables and the blob
    directory are untouched. *)
Theorem delete_user_spec (w : World) (k : Z) (body : UserUpdate.t) :
  (int64 k = true -> k ∉ User.id <$> users w ->
     delete_user k body w = (Err (HTTPException 404 "User not Found"), w)
     /\ DELETE_user k body w = (Err (HTTPException 404 "User not Found"), w))
  /\ (forall u, wf w -> u ∈ users w -> User.id u = k ->
     exists w' l1 l2,
       delete_user k body w = (Ok u, w')
       /\ DELETE_user k body w = (Ok (UserResponse.from_attributes u), w')
       /\ users w = l1 ++ u :: l2
       /\ users w' = l1 ++ l2
       /\ (k ∉ User.id <$> users w')
       /\ pdfs w' = pdfs w /\ summaries w' = summaries w
       /\ storage w' = storage w).
Proof.
  split.
  - intros Hk H. pose proof (delete_user_absent w k body H) as E.
    rewrite Hk in E.
    split; [done|]. unfold DELETE_user, response_model. by rewrite E.
  - intros u Hwf Hin <-.
    pose proof (delete_user_present w u body (wf_user_ids w Hwf) Hin) as E.
    destruct (without_key_split User.id (users w) u (wf_user_ids w Hwf) Hin)
      as (l1 & l2 & Hrows & Hdel).
    exists (delete_user_row (User.id u) w), l1, l2.
    repeat split; try done.
    + unfold DELETE_user, response_model. by rewrite E.
    + simpl. rewrite list_elem_of_fmap. intros (v & Hid & Hv).
      apply elem_of_without_key in Hv as [_ Hv]. congruence.
Qed.

(** C4, as stated for every absent id, fails: 2^63 is the id of no row
    and the delete ends with the driver's unhandled [OverflowError], not
    with [HTTPException(404)]. *)
Lemma delete_user_overflow :
  (9223372036854775808 ∉ User.id <$> users two_users)
  /\ DELETE_user 9223372036854775808 (UserUpdate.mk None None None) two_users
     = (Err (Unhandled OverflowError), two_users)
  /\ DELETE_user 9223372036854775808 (UserUpdate.mk None None None) two_users
     <> (Err (HTTPException 404 "User not Found"), two_users).
Proof.
  split; [|split]; [|reflexivity|discriminate].
  simpl. rewrite !not_elem_of_cons. repeat split; try lia.
  apply not_elem_of_nil.
Qed.

Lemma delete_user_spec_witness :
  DELETE_user 7 (UserUpdate.mk None None None) two_users
  = (Err (HTTPException 404 "User not Found"), two_users)
  /\ exists w', DELETE_user 1 (UserUpdate.mk None None None) two_users
                = (Ok (UserResponse.mk 1 "A" "a@x.com"), w')
                /\ users w' = [bob].
Proof.
  destruct (delete_user_spec two_users 7 (UserUpdate.mk None None None))
    as [Habs _].
  destruct (delete_user_spec two_users 1 (UserUpdate.mk None None None))
    as [_ Hpres].
  split.
  - apply Habs; [reflexivity|]. simpl. rewrite !not_elem_of_cons.
    repeat split; try lia. apply not_elem_of_nil.
  - assert (Hin : alice ∈ users two_users) by left.
    destruct (Hpres alice wf_two_users Hin eq_refl)
      as (w' & l1 & l2 & Hd & Hr & _).
    exists w'. split; [exact Hr|].
    injection Hd as <-. reflexivity.
Defined.

(** C9. The body of the delete request is never read: two calls of
    [delete_user] (and of the endpoint) on the same world and id that
    differ only in the body give the same response and the same world. *)
Theorem delete_user_ignores_body
    (w : World) (k : Z) (body1 body2 : UserUpdate.t) :
  delete_user k body1 w = delete_user k body2 w
  /\ DELETE_user k body1 w = DELETE_user k body2 w.
Proof. split; reflexivity. Qed.

(** ** Users: update *)

Section Replace.
Context {A : Type} (key : A -> Z).

Lemma replace_key_absent (k : Z) (y : A) (rows : list A) :
  k ∉ key <$> rows -> replace_key key k y rows = rows.
Proof.
  induction rows as [|z rows IH]; [done|].
  rewrite fmap_cons, not_elem_of_cons. intros [Hk Hrest].
  unfold replace_key in *. rewrite fmap_cons, (IH Hrest).
  destruct (Z.eqb_spec (key z) k) as [Heq|Hne]; [congruence | done].
Qed.

Lemma replace_key_split (rows : list A) (x y : A) :
  NoDup (key <$> rows) -> x ∈ rows ->
  exists l1 l2, rows = l1 ++ x :: l2
                /\ replace_key key (key x) y rows = l1 ++ y :: l2.
Proof.
  induction rows as [|z rows IH].
  - intros _ H. by apply elem_of_nil in H.
  - rewrite fmap_cons, NoDup_cons. intros [Hz Hnd] Hin.
    apply elem_of_cons in Hin as [->|Hin].
    + exists [], rows. split; [done|].
      pose proof (replace_key_absent (key z) y rows Hz) as E.
      unfold replace_key in *. by rewrite fmap_cons, Z.eqb_refl, E.
    + destruct (IH Hnd Hin) as (l1 & l2 & Hrows & Hrep).
      exists (z :: l1), l2. split; [by rewrite Hrows|].
      unfold replace_key in *. rewrite fmap_cons, Hrep.
      destruct (Z.eqb_spec (key z) (key x)) as [Heq|Hne]; [|done].
      exfalso. apply Hz. rewrite Heq. by apply list_elem_of_fmap_2.
Qed.
End Replace.

Lemma update_user_absent (w : World) (k : Z) (body : UserUpdate.t) :
  k ∉ User.id <$> users w ->
  update_user k body w
  = (Err (if int64 k then HTTPException 404 "User not Found"
          else Unhandled OverflowError), w).
Proof.
  intros H. unfold update_user, first_user.
  rewrite (select_by_id_absent User.id k (users w) H). by destruct (int64 k).
Qed.

(** C2, as amended.  [update_user] on a signed 64-bit id that no row has
    raises [HTTPException(404)] and leaves the world as it was.  On the id of a
    row [old] of a well-formed table, when the request either leaves the
    email unset or gives an email that no other row holds, the call
    succeeds: the returned row [new] has the id of [old], each field that
    the request leaves unset keeps the value it had in [old], each field
    that the request provides takes the provided value, the endpoint
    answers [new] through [UserResponse], and the [users] table is the
    old one with [new] in the place of [old]. *)
Theorem update_user_spec (w : World) (k : Z) (body : UserUpdate.t) :
  (int64 k = true -> k ∉ User.id <$> users w ->
     update_user k body w = (Err (HTTPException 404 "User not Found"), w)
     /\ PUT_user k body w = (Err (HTTPException 404 "User not Found"), w))
  /\ (forall old, wf w -> old ∈ users w -> User.id old = k ->
     (forall e v, UserUpdate.email body = Some e ->
                  v ∈ users w -> User.email v = e -> v = old) ->
     exists new w' l1 l2,
       update_user k body w = (Ok new, w')
       /\ PUT_user k body w = (Ok (UserResponse.from_attributes new), w')
       /\ User.id new = k
       /\ User.name new
          = match UserUpdate.name body with
            | Some n => n | None => User.name old end
       /\ User.email new
          = match UserUpdate.email body with
            | Some e => e | None => User.email old end
       /\ User.password new
          = match UserUpdate.password body with
            | Some p => p | None => User.password old end
       /\ users w = l1 ++ old :: l2
       /\ users w' = l1 ++ new :: l2
       /\ pdfs w' = pdfs w /\ summaries w' = summaries w
       /\ storage w' = storage w).
Proof.
  split.
  - intros Hk H. pose proof (update_user_absent w k body H) as E.
    rewrite Hk in E.
    split; [done|]. unfold PUT_user, response_model. by rewrite E.
  - intros old Hwf Hin <- Hfree.
    set (new := {| User.id := User.id old;
                   User.name := default (User.name old) (UserUpdate.name body);
                   User.email := default (User.email old) (UserUpdate.email body);
                   User.password :=
                     default (User.password old) (UserUpdate.password body) |}).
    assert (Hrow : update_user_row old new w
                   = Some {| users := replace_key User.id (User.id old) new (users w);
                             pdfs := pdfs w; summaries := summaries w;
                             storage := storage w |}).
    { unfold update_user_row.
      destruct (String.eqb_spec (User.email new) (User.email old)) as [Heq|Hne];
        [done|]. simpl negb. rewrite andb_true_l.
      destruct (email_taken (User.email new)
                  (without_key User.id (User.id old) (users w)))
        eqn:Ht; [|done].
      exfalso. apply email_taken_true in Ht as (v & Hv & Hemail).
      apply elem_of_without_key in Hv as [Hv Hid].
      destruct (UserUpdate.email body) as [e|] eqn:He; simpl in Hne, Hemail;
        [|done].
      apply Hid. by rewrite (Hfree e v eq_refl Hv Hemail). }
    assert (E : update_user (User.id old) body w
                = (Ok new, {| users := replace_key User.id (User.id old) new (users w);
                              pdfs := pdfs w; summaries := summaries w;
                              storage := storage w |})).
    { unfold update_user, first_user.
      rewrite (select_by_id_present User.id (users w) old
                 (wf_user_ids w Hwf) Hin).
      fold new. by rewrite Hrow. }
    destruct (replace_key_split User.id (users w) old new (wf_user_ids w Hwf) Hin)
      as (l1 & l2 & Hrows & Hrep).
    eexists new, _, l1, l2. split; [exact E|].
    split; [unfold PUT_user, response_model; by rewrite E|].
    repeat split; simpl; done.
Qed.

Lemma update_user_spec_witness :
  PUT_user 7 (UserUpdate.mk (Some "C") None None) two_users
  = (Err (HTTPException 404 "User not Found"), two_users)
  /\ exists w', PUT_user 2 (UserUpdate.mk (Some "C") None None) two_users
                = (Ok (UserResponse.mk 2 "C" "b@x.com"), w')
                /\ users w' = [alice; User.mk 2 "C" "b@x.com" "q"].
Proof.
  destruct (update_user_spec two_users 7 (UserUpdate.mk (Some "C") None None))
    as [Habs _].
  destruct (update_user_spec two_users 2 (UserUpdate.mk (Some "C") None None))
    as [_ Hpres].
  split.
  - apply Habs; [reflexivity|]. simpl. rewrite !not_elem_of_cons.
    repeat split; try lia. apply not_elem_of_nil.
  - assert (Hin : bob ∈ users two_users) by (right; left).
    destruct (Hpres bob wf_two_users Hin eq_refl) as (new & w' & l1 & l2 & Hu & Hr & _).
    + intros e v He. discriminate He.
    + exists w'. split; [|injection Hu as _ <-; reflexivity].
      injection Hu as <- _. exact Hr.
Defined.

(** C2, as stated, fails twice.  A request that leaves [name] and
    [password] unset and provides the email of another user is not
    answered with the updated record: the commit raises [IntegrityError]
    and no field is set.  And for 2^63, the id of no row, the update ends
    with the driver's unhandled [OverflowError], not with
    [HTTPException(404)]. *)
Lemma update_user_duplicate_email_fails :
  bob ∈ users two_users
  /\ PUT_user 2 (UserUpdate.mk None (Some "a@x.com") None) two_users
     = (Err (Unhandled IntegrityError), two_users)
  /\ ~ (exists new w',
          update_user 2 (UserUpdate.mk None (Some "a@x.com") None) two_users
          = (Ok new, w')
          /\ User.email new = "a@x.com")
  /\ (9223372036854775808 ∉ User.id <$> users two_users)
  /\ PUT_user 9223372036854775808 (UserUpdate.mk (Some "C") None None) two_users
     = (Err (Unhandled OverflowError), two_users)
  /\ PUT_user 9223372036854775808 (UserUpdate.mk (Some "C") None None) two_users
     <> (Err (HTTPException 404 "User not Found"), two_users).
Proof.
  split; [right; left|]. split; [reflexivity|]. split.
  { intros (new & w' & H & _). vm_compute in H. discriminate H. }
  split; [|split]; [|reflexivity|discriminate].
  simpl. rewrite !not_elem_of_cons. repeat split; try lia.
  apply not_elem_of_nil.
Qed.

(** ** PDFs: upload and download *)

Lemma string_length_app (a b : string) :
  String.length (a +:+ b) = (String.length a + String.length b)%nat.
Proof. induction a as [|c a IH]; simpl; [done | by rewrite IH]. Qed.

Lemma string_app_inj_r (s a b : string) : a +:+ s = b +:+ s -> a = b.
Proof.
  revert b. induction a as [|c a IH]; intros [|d b] H.
  - done.
  - apply (f_equal String.length) in H.
    rewrite !string_length_app in H. simpl in H. lia.
  - apply (f_equal String.length) in H.
    rewrite !string_length_app in H. simpl in H. lia.
  - simpl in H. injection H as -> H. f_equal. by apply IH.
Qed.

(** Distinct identifiers give distinct paths. *)
Lemma storage_path_of_inj (id1 id2 : string) :
  storage_path_of id1 = storage_path_of id2 -> id1 = id2.
Proof.
  unfold storage_path_of. intros H.
  apply (inj (String.app "storage/")) in H.
  by apply string_app_inj_r in H.
Qed.

Lemma create_pdf_eq (w : World) (file : UploadFile.t) (file_id : string) :
  create_pdf file file_id w
  = (Ok {| PDF.id := next_rowid (PDF.id <$> pdfs w);
           PDF.user_id := 1;
           PDF.fileName := UploadFile.filename file;
           PDF.storage_path := storage_path_of file_id |},
     {| users := users w;
        pdfs := pdfs w ++ [ {| PDF.id := next_rowid (PDF.id <$> pdfs w);
                               PDF.user_id := 1;
                               PDF.fileName := UploadFile.filename file;
                               PDF.storage_path := storage_path_of file_id |} ];
        summaries := summaries w;
        storage := <[storage_path_of file_id := UploadFile.file file]> (storage w) |}).
Proof. reflexivity. Qed.

(** C7. For every upload, [create_pdf] appends one row to [pdfs] whose
    [user_id] is 1, whose [fileName] is the file name sent by the client
    and whose [storage_path] is [storage/<file_id>.pdf] for the identifier
    drawn by the call; the row gets an id that no earlier row has, the
    binary is written at that path, distinct identifiers give distinct
    paths, and [users] and [summaries] are untouched. *)
Theorem create_pdf_record (w : World) (file : UploadFile.t) (file_id : string) :
  exists pdf w',
    create_pdf file file_id w = (Ok pdf, w')
    /\ pdfs w' = pdfs w ++ [pdf]
    /\ PDF.user_id pdf = 1
    /\ PDF.fileName pdf = UploadFile.filename file
    /\ PDF.storage_path pdf = "storage/" +:+ file_id +:+ ".pdf"
    /\ (PDF.id pdf ∉ PDF.id <$> pdfs w)
    /\ storage w' !! PDF.storage_path pdf = Some (UploadFile.file file)
    /\ (forall other, storage_path_of other = PDF.storage_path pdf ->
                      other = file_id)
    /\ users w' = users w /\ summaries w' = summaries w.
Proof.
  eexists _, _. split; [apply create_pdf_eq|]. simpl.
  repeat split; try done.
  - apply next_rowid_fresh.
  - apply lookup_insert_eq.
  - intros other H. by apply storage_path_of_inj.
Qed.

(** C3. Uploading a file and then downloading by the id that the upload
    answered gives back the uploaded bytes, with media type
    [application/pdf] and the client's file name as download name. *)
Theorem upload_download_roundtrip
    (w : World) (file : UploadFile.t) (file_id : string) :
  exists resp w1,
    POST_pdf_upload file file_id w = (Ok resp, w1)
    /\ PDFResponse.fileName resp = UploadFile.filename file
    /\ GET_pdf_download (PDFResponse.id resp) w1
       = (Ok {| Download.content := UploadFile.file file;
                Download.media_type := "application/pdf";
                Download.filename := UploadFile.filename file |}, w1).
Proof.
  unfold POST_pdf_upload, response_model. rewrite create_pdf_eq.
  eexists _, _. split; [done|]. split; [done|].
  set (pdf := {| PDF.id := next_rowid (PDF.id <$> pdfs w);
                 PDF.user_id := 1;
                 PDF.fileName := UploadFile.filename file;
                 PDF.storage_path := storage_path_of file_id |}).
  unfold GET_pdf_download, get_pdf, first_pdf, select_by_id. simpl.
  pose proof (find_key_app_fresh PDF.id (pdfs w) pdf
                (next_rowid_fresh (PDF.id <$> pdfs w))) as F.
  simpl in F. rewrite F.
  unfold send_file. simpl. by rewrite lookup_insert_eq.
Qed.

Example upload_download_paper :
  exists w1,
    POST_pdf_upload paper "6f1c" empty_world
    = (Ok (PDFResponse.mk 1 "paper.pdf"), w1)
    /\ pdfs w1 = [PDF.mk 1 1 "paper.pdf" "storage/6f1c.pdf"]
    /\ fst (GET_pdf_download 1 w1)
       = Ok (Download.mk [x25; x50; x44; x46] "application/pdf" "paper.pdf")
    /\ fst (GET_pdf_download 2 w1) = Err (HTTPException 404 "PDF not Found").
Proof. eexists. split; [reflexivity|]. repeat split; by vm_compute. Qed.

(** ** Summaries *)

(** C5, as amended.  [create_summary] reads the attribute [summary] of
    the request, an attribute that [SummaryRequest] does not have, so for
    every request the handler and the route end with an unhandled
    [AttributeError] and nothing is answered.  [get_summary] returns
    [None] for every input; the route checks it against
    [SummaryResponse] and ends with an unhandled
    [ResponseValidationError].  Neither changes the world (no [Summary]
    row, no file) and neither reads it: the outcome is the same in every
    world. *)
Theorem summary_stubs
    (w w2 : World) (summary_request : SummaryRequest.t) (pdf_id : Z) :
  SummaryRequest.getattr summary_request "summary" = None
  /\ create_summary summary_request w = (Err (Unhandled AttributeError), w)
  /\ POST_summary summary_request w = (Err (Unhandled AttributeError), w)
  /\ get_summary pdf_id w = (Ok None, w)
  /\ GET_summary pdf_id w = (Err (Unhandled ResponseValidationError), w)
  /\ fst (POST_summary summary_request w)
     = fst (POST_summary summary_request w2)
  /\ fst (GET_summary pdf_id w) = fst (GET_summary pdf_id w2).
Proof. repeat split. Qed.

(** C5, as stated, fails: the create route answers no field of the
    request and the get route answers no empty response; both requests
    end with an unhandled exception. *)
Lemma summary_routes_answer_nothing :
  POST_summary (SummaryRequest.mk 1 "6f1c") empty_world
  = (Err (Unhandled AttributeError), empty_world)
  /\ ~ (exists v, fst (POST_summary (SummaryRequest.mk 1 "6f1c") empty_world)
                  = Ok v)
  /\ GET_summary 1 empty_world
     = (Err (Unhandled ResponseValidationError), empty_world)
  /\ ~ (exists r, fst (GET_summary 1 empty_world) = Ok r).
Proof.
  split; [reflexivity|]. split; [intros (v & H); discriminate H|].
  split; [reflexivity|]. intros (r & H); discriminate H.
Qed.

(** ** Users and PDFs: list *)

Lemma sql_limit_nonneg {A : Type} (limit : Z) (rows : list A) :
  0 <= limit -> sql_limit limit rows = take (Z.to_nat limit) rows.
Proof.
  intros H. unfold sql_limit. destruct (Z.ltb_spec limit 0); [lia | done].
Qed.

Lemma sql_limit_negative {A : Type} (limit : Z) (rows : list A) :
  limit < 0 -> sql_limit limit rows = rows.
Proof.
  intros H. unfold sql_limit. destruct (Z.ltb_spec limit 0); [done | lia].
Qed.

Lemma sql_page_length {A : Type} (skip limit : Z) (rows : list A) :
  0 <= limit ->
  Z.of_nat (length (sql_limit limit (sql_offset skip rows))) <= limit.
Proof.
  intros H. rewrite sql_limit_nonneg by done. rewrite length_take. lia.
Qed.

Lemma sql_page_all {A : Type} (skip limit : Z) (rows : list A) :
  Z.of_nat (length rows) <= limit ->
  sql_limit limit (sql_offset skip rows) = sql_offset skip rows.
Proof.
  intros H. rewrite sql_limit_nonneg by lia. apply take_ge.
  unfold sql_offset. rewrite length_drop. lia.
Qed.

Lemma sql_page_nil {A : Type} (skip limit : Z) :
  sql_limit limit (sql_offset skip (@nil A)) = [].
Proof.
  unfold sql_limit, sql_offset. rewrite drop_nil.
  destruct (limit <? 0); [done | apply take_nil].
Qed.

Lemma read_users_bound (w : World) (skip limit : Z) :
  int64 skip = true -> int64 limit = true ->
  read_users (Some skip) (Some limit) w
  = (Ok (sql_limit limit (sql_offset skip (users w))), w).
Proof.
  intros Hs Hl. unfold read_users, select_page. simpl. by rewrite Hs, Hl.
Qed.

Lemma read_pdfs_bound (w : World) (skip limit : Z) :
  int64 skip = true -> int64 limit = true ->
  read_pdfs (Some skip) (Some limit) w
  = (Ok (sql_limit limit (sql_offset skip (pdfs w))), w).
Proof.
  intros Hs Hl. unfold read_pdfs, select_page. simpl. by rewrite Hs, Hl.
Qed.

(** C8, as amended.  [read_users] and [read_pdfs] take [skip = 0] and
    [limit = 10] when the parameters are omitted.  On an empty table they
    answer the empty list, with the defaults and with every [skip] and
    [limit] that are signed 64-bit integers.  For such [skip] and a
    non-negative such [limit] they succeed, leave the world as it was and
    return the rows of the table after the first [skip] ones (none is
    skipped when [skip] is negative), cut after [limit] rows: at most
    [limit] records.  Below 2^63 no bound is put on [limit]: a [limit] at
    least the size of the table returns every row after the offset. *)
Theorem list_page_spec (w : World) (skip limit : Z) :
  (read_users None None w = read_users (Some 0) (Some 10) w
   /\ read_users (Some skip) None w = read_users (Some skip) (Some 10) w
   /\ read_users None (Some limit) w = read_users (Some 0) (Some limit) w
   /\ read_pdfs None None w = read_pdfs (Some 0) (Some 10) w
   /\ read_pdfs (Some skip) None w = read_pdfs (Some skip) (Some 10) w
   /\ read_pdfs None (Some limit) w = read_pdfs (Some 0) (Some limit) w)
  /\ (users w = [] -> GET_users None None w = (Ok [], w))
  /\ (pdfs w = [] -> GET_pdfs None None w = (Ok [], w))
  /\ (int64 skip = true -> int64 limit = true ->
      (users w = [] -> GET_users (Some skip) (Some limit) w = (Ok [], w))
      /\ (pdfs w = [] -> GET_pdfs (Some skip) (Some limit) w = (Ok [], w)))
  /\ (int64 skip = true -> int64 limit = true -> 0 <= limit ->
      (exists rows,
         read_users (Some skip) (Some limit) w = (Ok rows, w)
         /\ GET_users (Some skip) (Some limit) w
            = (Ok (UserResponse.from_attributes <$> rows), w)
         /\ rows = take (Z.to_nat limit) (drop (Z.to_nat skip) (users w))
         /\ Z.of_nat (length rows) <= limit
         /\ (Z.of_nat (length (users w)) <= limit ->
             rows = drop (Z.to_nat skip) (users w)))
      /\ (exists rows,
         read_pdfs (Some skip) (Some limit) w = (Ok rows, w)
         /\ GET_pdfs (Some skip) (Some limit) w
            = (Ok (PDFResponse.from_attributes <$> rows), w)
         /\ rows = take (Z.to_nat limit) (drop (Z.to_nat skip) (pdfs w))
         /\ Z.of_nat (length rows) <= limit
         /\ (Z.of_nat (length (pdfs w)) <= limit ->
             rows = drop (Z.to_nat skip) (pdfs w)))).
Proof.
  split; [repeat split|].
  split; [intros E; unfold GET_users, response_model, read_users; simpl;
          by rewrite E|].
  split; [intros E; unfold GET_pdfs, response_model, read_pdfs; simpl;
          by rewrite E|].
  split.
  - intros Hs Hl. split; intros E.
    + unfold GET_users, response_model. rewrite read_users_bound by done.
      by rewrite E, sql_page_nil.
    + unfold GET_pdfs, response_model. rewrite read_pdfs_bound by done.
      by rewrite E, sql_page_nil.
  - intros Hs Hl Hlimit. split.
    + exists (sql_limit limit (sql_offset skip (users w))).
      split; [by apply read_users_bound|].
      split; [unfold GET_users, response_model;
              by rewrite read_users_bound|].
      split; [by apply sql_limit_nonneg|].
      split; [by apply sql_page_length|]. apply sql_page_all.
    + exists (sql_limit limit (sql_offset skip (pdfs w))).
      split; [by apply read_pdfs_bound|].
      split; [unfold GET_pdfs, response_model;
              by rewrite read_pdfs_bound|].
      split; [by apply sql_limit_nonneg|].
      split; [by apply sql_page_length|]. apply sql_page_all.
Qed.

Lemma list_page_spec_witness :
  GET_users (Some 1) (Some 1) two_users
  = (Ok [UserResponse.mk 2 "B" "b@x.com"], two_users)
  /\ GET_users None None empty_world = (Ok [], empty_world)
  /\ GET_pdfs (Some 3) (Some (-1)) two_users = (Ok [], two_users).
Proof.
  destruct (list_page_spec two_users 1 1) as (_ & _ & _ & _ & Hpage).
  destruct (Hpage eq_refl eq_refl ltac:(lia))
    as ((rows & _ & Hget & Hrows & _) & _).
  destruct (list_page_spec empty_world 0 10) as (_ & Hnil & _).
  destruct (list_page_spec two_users 3 (-1)) as (_ & _ & _ & Hempty & _).
  split; [rewrite Hget, Hrows; reflexivity|].
  split; [by apply Hnil|].
  by apply (Hempty eq_refl eq_refl).
Defined.

(** C8, as stated, fails in two ways.  A negative [limit] is read by
    SQLite as no limit: with [limit = -1] both rows of the table are
    answered, where a page of at most [limit] records has none.  And
    [limit] is bounded by the integers of the database: with
    [limit = 2^63] the request ends with the driver's unhandled
    [OverflowError], on an empty table too. *)
Lemma list_negative_limit_unbounded :
  GET_users (Some 0) (Some (-1)) two_users
  = (Ok [UserResponse.mk 1 "A" "a@x.com"; UserResponse.mk 2 "B" "b@x.com"],
     two_users)
  /\ ~ (Z.of_nat (length [UserResponse.mk 1 "A" "a@x.com";
                          UserResponse.mk 2 "B" "b@x.com"]) <= Z.max 0 (-1))
  /\ GET_users (Some 0) (Some 9223372036854775808) two_users
     = (Err (Unhandled OverflowError), two_users)
  /\ GET_pdfs (Some 0) (Some 9223372036854775808) empty_world
     = (Err (Unhandled OverflowError), empty_world).
Proof.
  split; [reflexivity|]. split; [simpl; lia|]. split; reflexivity.
Qed.

(** ** Passwords never leave the store *)

Lemma from_attributes_public (u v : User.t) :
  same_public_user u v ->
  UserResponse.from_attributes u = UserResponse.from_attributes v.
Proof.
  intros (Hid & Hname & Hemail). unfold UserResponse.from_attributes.
  by rewrite Hid, Hname, Hemail.
Qed.

Lemma public_rows_serialise (l1 l2 : list User.t) :
  Forall2 same_public_user l1 l2 ->
  UserResponse.from_attributes <$> l1 = UserResponse.from_attributes <$> l2.
Proof.
  induction 1 as [|u v l1 l2 Huv _ IH]; [done|].
  rewrite !fmap_cons. f_equal; [by apply from_attributes_public | done].
Qed.

Lemma public_rows_find (k : Z) (l1 l2 : list User.t) :
  Forall2 same_public_user l1 l2 ->
  option_Forall2 same_public_user
    (find_key User.id k l1) (find_key User.id k l2).
Proof.
  unfold find_key. induction 1 as [|u v l1 l2 Huv _ IH]; simpl; [constructor|].
  destruct Huv as (Hid & Hrest). rewrite <- Hid.
  destruct (User.id u =? k); [by constructor | done].
Qed.

Lemma public_rows_delete (k : Z) (l1 l2 : list User.t) :
  Forall2 same_public_user l1 l2 ->
  Forall2 same_public_user
    (without_key User.id k l1) (without_key User.id k l2).
Proof.
  unfold without_key. induction 1 as [|u v l1 l2 Huv _ IH]; simpl; [constructor|].
  destruct Huv as (Hid & Hrest). rewrite <- Hid.
  destruct (User.id u =? k); simpl; [done | by constructor].
Qed.

Lemma public_rows_page (skip limit : Z) (l1 l2 : list User.t) :
  Forall2 same_public_user l1 l2 ->
  Forall2 same_public_user
    (sql_limit limit (sql_offset skip l1)) (sql_limit limit (sql_offset skip l2)).
Proof.
  intros H. unfold sql_limit, sql_offset.
  destruct (limit <? 0); [|apply Forall2_take]; by apply Forall2_drop.
Qed.

(** C10. The user response contract has the fields [id], [name] and
    [email] only.  For two worlds that differ at most in the passwords
    stored in [users], get-user-by-id, list-users and delete-user answer
    the same (the same record, list or error), and the worlds after the
    deletion still differ at most in passwords. *)
Theorem user_responses_hide_password
    (w1 w2 : World) (k : Z) (skip limit : option Z) (body : UserUpdate.t) :
  differ_in_passwords w1 w2 ->
  fst (GET_user k w1) = fst (GET_user k w2)
  /\ fst (GET_users skip limit w1) = fst (GET_users skip limit w2)
  /\ fst (DELETE_user k body w1) = fst (DELETE_user k body w2)
  /\ differ_in_passwords (snd (DELETE_user k body w1))
                         (snd (DELETE_user k body w2)).
Proof.
  intros (Husers & Hpdfs & Hsum & Hsto).
  pose proof (public_rows_find k _ _ Husers) as Hfind.
  repeat split.
  - unfold GET_user, response_model, read_user, first_user, select_by_id.
    destruct Hfind as [u v Huv|]; simpl; [|by destruct (int64 k)].
    by rewrite (from_attributes_public u v Huv).
  - unfold GET_users, response_model, read_users, select_page.
    destruct (int64 (default 0 skip) && int64 (default 10 limit)); [|done].
    simpl. f_equal. by apply public_rows_serialise, public_rows_page.
  - unfold DELETE_user, response_model, delete_user, first_user, select_by_id.
    destruct Hfind as [u v Huv|]; simpl; [|by destruct (int64 k)].
    by rewrite (from_attributes_public u v Huv).
  - unfold DELETE_user, response_model, delete_user, first_user, select_by_id.
    destruct Hfind as [u v Huv|]; simpl; [|by destruct (int64 k)].
    by apply public_rows_delete.
  - unfold DELETE_user, response_model, delete_user, first_user, select_by_id.
    destruct Hfind as [u v Huv|]; simpl; [done | by destruct (int64 k)].
  - unfold DELETE_user, response_model, delete_user, first_user, select_by_id.
    destruct Hfind as [u v Huv|]; simpl; [done | by destruct (int64 k)].
  - unfold DELETE_user, response_model, delete_user, first_user, select_by_id.
    destruct Hfind as [u v Huv|]; simpl; [done | by destruct (int64 k)].
Qed.

Lemma user_responses_hide_password_witness :
  differ_in_passwords two_users two_users_other_passwords
  /\ fst (GET_user 1 two_users) = fst (GET_user 1 two_users_other_passwords)
  /\ fst (GET_users None None two_users)
     = fst (GET_users None None two_users_other_passwords).
Proof.
  assert (H : differ_in_passwords two_users two_users_other_passwords).
  { split; [|done]. repeat constructor. }
  split; [exact H|].
  destruct (user_responses_hide_password two_users two_users_other_passwords
              1 None None (UserUpdate.mk None None None) H) as (Hg & Hl & _).
  split; [exact Hg | exact Hl].
Defined.

(** ** The handlers keep the tables well formed *)

Lemma wf_create_user (w w' : World) (user : UserCreate.t) (r : Result User.t) :
  wf w -> create_user user w = (r, w') -> wf w'.
Proof.
  intros [Hids Hemails Hpdfs]. unfold create_user, insert_user.
  destruct (email_taken (UserCreate.email user) (users w)) eqn:Ht.
  - intros [= <- <-]. by split.
  - intros [= <- <-]. apply email_taken_false in Ht.
    split; simpl; [| |done]; rewrite fmap_app; apply NoDup_app;
      (split; [done|]); (split; [|apply NoDup_singleton]);
      intros x Hx Hx'; apply list_elem_of_singleton in Hx'; subst x.
    + by apply next_rowid_fresh in Hx.
    + done.
Qed.

Lemma wf_delete_user (w w' : World) (k : Z) (body : UserUpdate.t)
    (r : Result User.t) :
  wf w -> delete_user k body w = (r, w') -> wf w'.
Proof.
  intros [Hids Hemails Hpdfs]. unfold delete_user.
  destruct (first_user k w); intros [= <- <-]; [|by split|by split].
  pose proof (without_key_sublist User.id k (users w)) as Hsub.
  split; simpl; [| |done].
  - eapply sublist_NoDup; [exact Hids|]. by apply fmap_sublist.
  - eapply sublist_NoDup; [exact Hemails|]. by apply fmap_sublist.
Qed.

Lemma wf_update_user (w w' : World) (k : Z) (body : UserUpdate.t)
    (r : Result User.t) :
  wf w -> update_user k body w = (r, w') -> wf w'.
Proof.
  intros Hwf. pose proof Hwf as [Hids Hemails Hpdfs]. unfold update_user.
  destruct (first_user k w) as [old| |] eqn:Hfind;
    [|by intros [= <- <-]|by intros [= <- <-]].
  apply (select_by_id_Row User.id), (find_key_Some User.id) in Hfind
    as [Hin <-].
  set (new := {| User.id := User.id old;
                 User.name := default (User.name old) (UserUpdate.name body);
                 User.email := default (User.email old) (UserUpdate.email body);
                 User.password :=
                   default (User.password old) (UserUpdate.password body) |}).
  unfold update_user_row.
  destruct (negb (String.eqb (User.email new) (User.email old))
            && email_taken (User.email new)
                 (without_key User.id (User.id old) (users w)))
    eqn:Hc; intros [= <- <-]; [done|].
  destruct (replace_key_split User.id (users w) old new Hids Hin)
    as (l1 & l2 & Hrows & Hrep).
  destruct (without_key_split User.id (users w) old Hids Hin)
    as (m1 & m2 & Hrows' & Hdel).
  assert (Hm : l1 = m1 /\ l2 = m2).
  { rewrite Hrows in Hrows', Hids. clear -Hrows' Hids.
    revert m1 Hrows'. induction l1 as [|y l1 IH]; intros [|z m1] H; simpl in *.
    - by injection H as ->.
    - injection H as -> H. exfalso. rewrite H in Hids.
      apply NoDup_cons in Hids as [Hz _]. apply Hz.
      rewrite fmap_app, fmap_cons. apply elem_of_app. right. left.
    - injection H as -> H. exfalso.
      apply NoDup_cons in Hids as [Hz _]. apply Hz.
      rewrite fmap_app, fmap_cons. apply elem_of_app. right. left.
    - injection H as -> H. apply NoDup_cons in Hids as [_ Hids].
      destruct (IH Hids m1 H) as [-> ->]. done. }
  destruct Hm as [<- <-].
  split; simpl; [| |done]; rewrite Hrep.
  - rewrite Hrows in Hids. by rewrite fmap_app, fmap_cons in *.
  - rewrite Hrows in Hemails. rewrite fmap_app, fmap_cons in *.
    destruct (String.eqb_spec (User.email new) (User.email old)) as [->|Hne];
      [done|].
    simpl in Hc. rewrite Hdel in Hc. apply email_taken_false in Hc.
    rewrite fmap_app in Hc. apply not_elem_of_app in Hc as [Hc1 Hc2].
    apply NoDup_app in Hemails as (Hn1 & Hdisj & Hn2).
    apply NoDup_cons in Hn2 as [_ Hn2].
    apply NoDup_app. split; [done|]. split.
    + intros x Hx Hx'. apply elem_of_cons in Hx' as [->|Hx']; [done|].
      apply (Hdisj x Hx). by right.
    + by apply NoDup_cons.
Qed.

Lemma wf_create_pdf (w w' : World) (file : UploadFile.t) (file_id : string)
    (r : Result PDF.t) :
  wf w -> create_pdf file file_id w = (r, w') -> wf w'.
Proof.
  intros [Hids Hemails Hpdfs]. rewrite create_pdf_eq. intros [= <- <-].
  split; simpl; [done|done|].
  rewrite fmap_app. apply NoDup_app. split; [done|].
  split; [|apply NoDup_singleton].
  intros x Hx Hx'. apply list_elem_of_singleton in Hx'. subst x.
  by apply next_rowid_fresh in Hx.
Qed.

(** * Further properties of the handlers *)

(** ** More on keyed tables *)

Lemma field_determines_row {A B : Type} (f : A -> B) (rows : list A) (x y : A) :
  NoDup (f <$> rows) -> x ∈ rows -> y ∈ rows -> f x = f y -> x = y.
Proof.
  induction rows as [|z rows IH]; [intros _ H; by apply elem_of_nil in H|].
  rewrite fmap_cons, NoDup_cons. intros [Hz Hnd] Hx Hy Hk.
  apply elem_of_cons in Hx as [->|Hx]; apply elem_of_cons in Hy as [->|Hy].
  - done.
  - exfalso. apply Hz. rewrite Hk. by apply list_elem_of_fmap_2.
  - exfalso. apply Hz. rewrite <- Hk. by apply list_elem_of_fmap_2.
  - by apply IH.
Qed.

Section KeyedMore.
Context {A : Type} (key : A -> Z).

Lemma key_determines_row (rows : list A) (x y : A) :
  NoDup (key <$> rows) -> x ∈ rows -> y ∈ rows -> key x = key y -> x = y.
Proof. apply field_determines_row. Qed.

Lemma find_key_without (k : Z) (rows : list A) :
  find_key key k (without_key key k rows) = None.
Proof.
  apply find_key_None. rewrite list_elem_of_fmap. intros (x & Hk & Hx).
  apply elem_of_without_key in Hx as [_ Hx]. congruence.
Qed.

Lemma find_key_replace (k : Z) (y : A) (rows : list A) :
  key y = k -> k ∈ key <$> rows ->
  find_key key k (replace_key key k y rows) = Some y.
Proof.
  intros Hy. unfold find_key, replace_key.
  induction rows as [|z rows IH]; [intros H; by apply elem_of_nil in H|].
  rewrite !fmap_cons. simpl. intros Hin.
  destruct (Z.eqb_spec (key z) k) as [Hz|Hz].
  - by rewrite Hy, Z.eqb_refl.
  - apply elem_of_cons in Hin as [Hin|Hin]; [congruence|].
    destruct (Z.eqb_spec (key z) k); [congruence | by apply IH].
Qed.

Lemma find_key_replace_other (k k' : Z) (y : A) (rows : list A) :
  key y = k -> k' <> k ->
  find_key key k' (replace_key key k y rows) = find_key key k' rows.
Proof.
  intros Hy Hne. unfold find_key, replace_key.
  induction rows as [|z rows IH]; [done|]. rewrite fmap_cons. simpl.
  destruct (Z.eqb_spec (key z) k) as [Hz|Hz].
  - rewrite Hy, Hz. destruct (Z.eqb_spec k k'); [congruence | done].
  - by rewrite IH.
Qed.

Lemma replace_key_keys (k : Z) (y : A) (rows : list A) :
  key y = k -> key <$> replace_key key k y rows = key <$> rows.
Proof.
  intros Hy. unfold replace_key.
  induction rows as [|z rows IH]; [done|]. rewrite !fmap_cons, IH. f_equal.
  destruct (Z.eqb_spec (key z) k); congruence.
Qed.

Lemma replace_key_same (rows : list A) (x : A) :
  NoDup (key <$> rows) -> x ∈ rows -> replace_key key (key x) x rows = rows.
Proof.
  intros Hnd Hx. unfold replace_key.
  assert (H : forall z, z ∈ rows -> (if key z =? key x then x else z) = z).
  { intros z Hz. destruct (Z.eqb_spec (key z) (key x)) as [Hk|]; [|done].
    by apply (key_determines_row rows). }
  clear Hnd Hx. induction rows as [|z rows IH]; [done|].
  rewrite fmap_cons, IH.
  - f_equal. apply H. left.
  - intros z' Hz'. apply H. by right.
Qed.

Lemma find_key_app_l (k : Z) (rows more : list A) (x : A) :
  find_key key k rows = Some x -> find_key key k (rows ++ more) = Some x.
Proof.
  unfold find_key. induction rows as [|z rows IH]; simpl; [done|].
  destruct (key z =? k); [done | apply IH].
Qed.
End KeyedMore.

(** ** Users: the successful create *)

Lemma create_user_eq (w : World) (user : UserCreate.t) :
  email_taken (UserCreate.email user) (users w) = false ->
  create_user user w
  = (Ok {| User.id := next_rowid (User.id <$> users w);
           User.name := UserCreate.name user;
           User.email := UserCreate.email user;
           User.password := UserCreate.password user |},
     {| users := users w ++ [ {| User.id := next_rowid (User.id <$> users w);
                                 User.name := UserCreate.name user;
                                 User.email := UserCreate.email user;
                                 User.password := UserCreate.password user |} ];
        pdfs := pdfs w; summaries := summaries w; storage := storage w |}).
Proof. intros H. unfold create_user, insert_user. by rewrite H. Qed.

Lemma email_taken_app (e : string) (l1 l2 : list User.t) :
  email_taken e (l1 ++ l2) = email_taken e l1 || email_taken e l2.
Proof. unfold email_taken. apply existsb_app. Qed.

(** X1. A create request whose email no stored row holds succeeds: the
    new row carries the request's name, email and password under an id
    that no stored row has, it is appended to [users] and nothing else
    changes, the endpoint answers its id, name and email, and reading that
    id afterwards returns the new row. *)
Theorem create_user_fresh_email (w : World) (user : UserCreate.t) :
  UserCreate.email user ∉ User.email <$> users w ->
  exists row w',
    create_user user w = (Ok row, w')
    /\ POST_users user w = (Ok (UserResponse.from_attributes row), w')
    /\ User.name row = UserCreate.name user
    /\ User.email row = UserCreate.email user
    /\ User.password row = UserCreate.password user
    /\ (User.id row ∉ User.id <$> users w)
    /\ users w' = users w ++ [row]
    /\ pdfs w' = pdfs w /\ summaries w' = summaries w
    /\ storage w' = storage w
    /\ read_user (User.id row) w' = (Ok row, w').
Proof.
  intros Hfresh. apply email_taken_false in Hfresh.
  pose proof (create_user_eq w user Hfresh) as E.
  eexists _, _. split; [exact E|].
  split; [unfold POST_users, response_model; by rewrite E|].
  simpl. repeat split; try done.
  - apply next_rowid_fresh.
  - unfold read_user, first_user, select_by_id. simpl.
    set (row := {| User.id := next_rowid (User.id <$> users w);
                   User.name := UserCreate.name user;
                   User.email := UserCreate.email user;
                   User.password := UserCreate.password user |}).
    pose proof (find_key_app_fresh User.id (users w) row
                  (next_rowid_fresh (User.id <$> users w))) as F.
    simpl in F. by rewrite F.
Qed.

Lemma create_user_fresh_email_witness :
  exists row w',
    create_user (UserCreate.mk "C" "c@x.com" "r") two_users = (Ok row, w')
    /\ User.id row = 3
    /\ read_user 3 w' = (Ok row, w').
Proof.
  destruct (create_user_fresh_email two_users (UserCreate.mk "C" "c@x.com" "r"))
    as (row & w' & Hc & _ & _ & _ & _ & _ & _ & _ & _ & _ & Hr).
  - simpl. rewrite !not_elem_of_cons. repeat split; try discriminate.
    apply not_elem_of_nil.
  - exists row, w'. injection Hc as <- <-. repeat split.
Defined.

(** X2. Whatever the outcome of a create request, repeating it on the
    world it leaves is rejected with [HTTPException(400)] and changes
    nothing more. *)
Theorem create_user_repeat_rejected (w : World) (user : UserCreate.t) :
  create_user user (snd (create_user user w))
  = (Err (HTTPException 400 "Email already registered"),
     snd (create_user user w))
  /\ POST_users user (snd (POST_users user w))
     = (Err (HTTPException 400 "Email already registered"),
        snd (POST_users user w)).
Proof.
  assert (H : email_taken (UserCreate.email user)
                (users (snd (create_user user w))) = true).
  { destruct (email_taken (UserCreate.email user) (users w)) eqn:Ht.
    - unfold create_user, insert_user. by rewrite Ht.
    - rewrite (create_user_eq w user Ht). simpl.
      rewrite email_taken_app, Ht. simpl. by rewrite String.eqb_refl. }
  assert (E : create_user user (snd (create_user user w))
              = (Err (HTTPException 400 "Email already registered"),
                 snd (create_user user w))).
  { unfold create_user at 1. unfold insert_user. by rewrite H. }
  split; [exact E|].
  assert (Hs : snd (POST_users user w) = snd (create_user user w)).
  { unfold POST_users, response_model.
    by destruct (create_user user w) as [[row|e] w']. }
  rewrite Hs. unfold POST_users at 1. unfold response_model. by rewrite E.
Qed.

(** ** Users: update and delete, composed with the other handlers *)

(** X3. An update that gives a user the email of another stored user is
    not caught by the handler: [db.commit()] raises [IntegrityError], the
    request ends with that unhandled exception and no row changes. *)
Theorem update_user_email_conflict
    (w : World) (old other : User.t) (body : UserUpdate.t) :
  wf w -> old ∈ users w -> other ∈ users w ->
  User.id other <> User.id old ->
  UserUpdate.email body = Some (User.email other) ->
  update_user (User.id old) body w = (Err (Unhandled IntegrityError), w)
  /\ PUT_user (User.id old) body w = (Err (Unhandled IntegrityError), w).
Proof.
  intros Hwf Hold Hother Hne Hbody.
  assert (E : update_user (User.id old) body w
              = (Err (Unhandled IntegrityError), w)).
  { unfold update_user, first_user.
    rewrite (select_by_id_present User.id (users w) old
               (wf_user_ids w Hwf) Hold).
    unfold update_user_row. simpl. rewrite Hbody. simpl.
    assert (Hemail : String.eqb (User.email other) (User.email old) = false).
    { apply String.eqb_neq. intros Heq. apply Hne. f_equal.
      by apply (field_determines_row User.email (users w) other old
                  (wf_user_emails w Hwf)). }
    assert (Ht : email_taken (User.email other)
                   (without_key User.id (User.id old) (users w)) = true).
    { apply email_taken_true. exists other. split; [|done].
      by apply elem_of_without_key. }
    by rewrite Hemail, Ht. }
  split; [exact E|]. unfold PUT_user, response_model. by rewrite E.
Qed.

Lemma update_user_email_conflict_witness :
  PUT_user 2 (UserUpdate.mk (Some "C") (Some "a@x.com") None) two_users
  = (Err (Unhandled IntegrityError), two_users).
Proof.
  assert (Hb : bob ∈ users two_users) by (right; left).
  assert (Ha : alice ∈ users two_users) by left.
  apply (update_user_email_conflict two_users bob alice
           (UserUpdate.mk (Some "C") (Some "a@x.com") None)
           wf_two_users Hb Ha); [simpl; lia | reflexivity].
Defined.

(** X4. An update request with all three fields unset, on a stored user,
    returns that user as stored and leaves the world exactly as it was. *)
Theorem update_user_nothing_set (w : World) (old : User.t) :
  wf w -> old ∈ users w ->
  update_user (User.id old) (UserUpdate.mk None None None) w = (Ok old, w)
  /\ PUT_user (User.id old) (UserUpdate.mk None None None) w
     = (Ok (UserResponse.from_attributes old), w).
Proof.
  intros Hwf Hold.
  assert (E : update_user (User.id old) (UserUpdate.mk None None None) w
              = (Ok old, w)).
  { unfold update_user, first_user.
    rewrite (select_by_id_present User.id (users w) old
               (wf_user_ids w Hwf) Hold).
    simpl. unfold update_user_row. simpl. rewrite String.eqb_refl. simpl.
    assert (Hrow : {| User.id := User.id old; User.name := User.name old;
                      User.email := User.email old;
                      User.password := User.password old |} = old)
      by (by destruct old).
    rewrite Hrow.
    rewrite (replace_key_same User.id (users w) old (wf_user_ids w Hwf) Hold).
    by destruct w. }
  split; [exact E|]. unfold PUT_user, response_model. by rewrite E.
Qed.

Lemma update_user_nothing_set_witness :
  update_user 1 (UserUpdate.mk None None None) two_users = (Ok alice, two_users).
Proof.
  assert (Ha : alice ∈ users two_users) by left.
  apply (update_user_nothing_set two_users alice wf_two_users Ha).
Defined.

(** X5. After a successful update of an id, reading that id returns the
    row that the update returned, and reading any other id returns what
    it returned before the update. *)
Theorem update_user_then_read
    (w w' : World) (k : Z) (body : UserUpdate.t) (new : User.t) :
  update_user k body w = (Ok new, w') ->
  read_user k w' = (Ok new, w')
  /\ GET_user k w' = (Ok (UserResponse.from_attributes new), w')
  /\ (forall k', k' <> k -> fst (read_user k' w') = fst (read_user k' w)).
Proof.
  unfold update_user.
  destruct (first_user k w) as [old| |] eqn:Hfind; [|discriminate..].
  unfold first_user in Hfind. apply (select_by_id_Row User.id) in Hfind.
  pose proof (find_key_Some User.id _ _ _ Hfind) as [Hin Hk].
  unfold update_user_row.
  destruct (negb _ && _); [discriminate|]. intros [= <- <-].
  assert (R : read_user k
                {| users := replace_key User.id (User.id old)
                              {| User.id := User.id old;
                                 User.name := default (User.name old) (UserUpdate.name body);
                                 User.email := default (User.email old) (UserUpdate.email body);
                                 User.password :=
                                   default (User.password old) (UserUpdate.password body) |}
                              (users w);
                   pdfs := pdfs w; summaries := summaries w; storage := storage w |}
              = (Ok {| User.id := User.id old;
                       User.name := default (User.name old) (UserUpdate.name body);
                       User.email := default (User.email old) (UserUpdate.email body);
                       User.password :=
                         default (User.password old) (UserUpdate.password body) |},
                 {| users := replace_key User.id (User.id old)
                               {| User.id := User.id old;
                                  User.name := default (User.name old) (UserUpdate.name body);
                                  User.email := default (User.email old) (UserUpdate.email body);
                                  User.password :=
                                    default (User.password old) (UserUpdate.password body) |}
                               (users w);
                    pdfs := pdfs w; summaries := summaries w;
                    storage := storage w |})).
  { unfold read_user, first_user, select_by_id. simpl. rewrite <- Hk.
    rewrite find_key_replace; [done | done |].
    by apply list_elem_of_fmap_2. }
  split; [exact R|]. split; [unfold GET_user, response_model; by rewrite R|].
  intros k' Hne. unfold read_user, first_user, select_by_id. simpl.
  rewrite find_key_replace_other by (done || congruence).
  destruct (find_key User.id k' (users w)); [done|]. by destruct (int64 k').
Qed.

Lemma update_user_then_read_witness :
  exists new w',
    update_user 2 (UserUpdate.mk None (Some "c@x.com") None) two_users
    = (Ok new, w')
    /\ GET_user 2 w' = (Ok (UserResponse.mk 2 "B" "c@x.com"), w').
Proof.
  eexists _, _. split; [reflexivity|].
  apply (update_user_then_read two_users _ 2
           (UserUpdate.mk None (Some "c@x.com") None) _ eq_refl).
Defined.

(** X6. After a successful delete of an id (a signed 64-bit integer, as
    every id that the database stores), that id is gone for every user
    handler: reading, updating and deleting it again all raise
    [HTTPException(404)]; reading any other id returns what it returned
    before. *)
Theorem delete_user_then_gone
    (w w' : World) (k : Z) (body : UserUpdate.t) (u : User.t) :
  int64 k = true ->
  delete_user k body w = (Ok u, w') ->
  read_user k w' = (Err (HTTPException 404 "User not Found"), w')
  /\ (forall body', update_user k body' w'
                    = (Err (HTTPException 404 "User not Found"), w'))
  /\ (forall body', delete_user k body' w'
                    = (Err (HTTPException 404 "User not Found"), w'))
  /\ (forall k', k' <> k -> fst (read_user k' w') = fst (read_user k' w)).
Proof.
  intros Hk. unfold delete_user at 1.
  destruct (first_user k w) as [old| |] eqn:Hfind; [|discriminate..].
  intros [= <- <-].
  assert (F : first_user k (delete_user_row k w) = NoRow).
  { unfold first_user, select_by_id. simpl.
    by rewrite (find_key_without User.id), Hk. }
  repeat split.
  - unfold read_user. by rewrite F.
  - intros body'. unfold update_user. by rewrite F.
  - intros body'. unfold delete_user. by rewrite F.
  - intros k' Hne. unfold read_user, first_user, select_by_id. simpl.
    assert (G : find_key User.id k' (without_key User.id k (users w))
                = find_key User.id k' (users w)).
    { unfold find_key, without_key. clear -Hne.
      induction (users w) as [|z rows IH]; simpl; [done|].
      destruct (Z.eqb_spec (User.id z) k) as [Hz|Hz]; simpl.
      - destruct (Z.eqb_spec (User.id z) k'); [congruence | done].
      - by rewrite IH. }
    rewrite G. destruct (find_key User.id k' (users w)); [done|].
    by destruct (int64 k').
Qed.

Lemma delete_user_then_gone_witness :
  exists w',
    delete_user 1 (UserUpdate.mk None None None) two_users = (Ok alice, w')
    /\ read_user 1 w' = (Err (HTTPException 404 "User not Found"), w').
Proof.
  eexists. split; [reflexivity|].
  apply (delete_user_then_gone two_users _ 1 (UserUpdate.mk None None None)
           alice eq_refl eq_refl).
Defined.

(** X7. Deleting a user frees the email: after a successful delete on a
    well-formed table, a create request with the deleted user's email
    succeeds. *)
Theorem delete_user_frees_email
    (w w' : World) (k : Z) (body : UserUpdate.t) (u : User.t)
    (user : UserCreate.t) :
  wf w ->
  delete_user k body w = (Ok u, w') ->
  UserCreate.email user = User.email u ->
  exists row w'',
    create_user user w' = (Ok row, w'')
    /\ User.email row = User.email u
    /\ users w'' = users w' ++ [row].
Proof.
  intros Hwf. unfold delete_user.
  destruct (first_user k w) as [old| |] eqn:Hfind; [|discriminate..].
  intros [= <- <-] Hemail.
  apply (select_by_id_Row User.id), (find_key_Some User.id) in Hfind
    as [Hin Hk].
  assert (Hfree : email_taken (UserCreate.email user)
                    (users (delete_user_row k w)) = false).
  { apply not_true_iff_false. intros Ht.
    apply email_taken_true in Ht as (v & Hv & Hve). simpl in Hv.
    apply elem_of_without_key in Hv as [Hv Hid]. apply Hid. rewrite <- Hk.
    f_equal. apply (field_determines_row User.email (users w) v old
                      (wf_user_emails w Hwf) Hv Hin). congruence. }
  rewrite (create_user_eq _ user Hfree).
  eexists _, _. split; [done|]. simpl. by split.
Qed.

Lemma delete_user_frees_email_witness :
  exists row w' w'',
    delete_user 1 (UserUpdate.mk None None None) two_users = (Ok alice, w')
    /\ create_user (UserCreate.mk "A2" "a@x.com" "z") w' = (Ok row, w'')
    /\ User.email row = "a@x.com".
Proof.
  destruct (delete_user_frees_email two_users _ 1 (UserUpdate.mk None None None)
              alice (UserCreate.mk "A2" "a@x.com" "z") wf_two_users
              eq_refl eq_refl) as (row & w'' & Hc & He & _).
  exists row, (delete_user_row 1 two_users), w''.
  split; [reflexivity|]. split; [exact Hc | exact He].
Defined.

(** ** Listing: pages *)

Lemma sql_pages_concatenate {A : Type} (skip n m : Z) (rows : list A) :
  0 <= skip -> 0 <= n -> 0 <= m ->
  sql_limit n (sql_offset skip rows) ++ sql_limit m (sql_offset (skip + n) rows)
  = sql_limit (n + m) (sql_offset skip rows).
Proof.
  intros Hs Hn Hm. rewrite !sql_limit_nonneg by lia. unfold sql_offset.
  rewrite Z2Nat.inj_add by lia. rewrite <- drop_drop.
  rewrite Z2Nat.inj_add by lia. apply take_take_drop.
Qed.

Lemma sql_page_sublist {A : Type} (skip limit : Z) (rows : list A) :
  sql_limit limit (sql_offset skip rows) `sublist_of` rows.
Proof.
  unfold sql_limit, sql_offset. destruct (limit <? 0).
  - apply sublist_drop.
  - etrans; [apply sublist_take | apply sublist_drop].
Qed.

(** X8. Consecutive pages fit together: for non-negative [skip], [n] and
    [m] with [skip + n] and [n + m] below 2^63, the page of [n] rows after
    [skip] followed by the page of [m] rows after [skip + n] is the page
    of [n + m] rows after [skip], for users and for PDFs. *)
Theorem list_pages_concatenate (w : World) (skip n m : Z) :
  0 <= skip -> 0 <= n -> 0 <= m ->
  int64 (skip + n) = true -> int64 (n + m) = true ->
  (exists p1 p2,
     read_users (Some skip) (Some n) w = (Ok p1, w)
     /\ read_users (Some (skip + n)) (Some m) w = (Ok p2, w)
     /\ read_users (Some skip) (Some (n + m)) w = (Ok (p1 ++ p2), w))
  /\ (exists p1 p2,
     read_pdfs (Some skip) (Some n) w = (Ok p1, w)
     /\ read_pdfs (Some (skip + n)) (Some m) w = (Ok p2, w)
     /\ read_pdfs (Some skip) (Some (n + m)) w = (Ok (p1 ++ p2), w)).
Proof.
  intros Hs Hn Hm Hsn Hnm.
  pose proof (proj1 (int64_spec _) Hsn) as Bsn.
  pose proof (proj1 (int64_spec _) Hnm) as Bnm.
  assert (Is : int64 skip = true) by (apply int64_spec; lia).
  assert (In : int64 n = true) by (apply int64_spec; lia).
  assert (Im : int64 m = true) by (apply int64_spec; lia).
  split.
  - eexists _, _. split; [by apply read_users_bound|].
    split; [by apply read_users_bound|].
    rewrite read_users_bound by done. by rewrite sql_pages_concatenate.
  - eexists _, _. split; [by apply read_pdfs_bound|].
    split; [by apply read_pdfs_bound|].
    rewrite read_pdfs_bound by done. by rewrite sql_pages_concatenate.
Qed.

Lemma list_pages_concatenate_witness :
  read_users (Some 0) (Some 1) two_users = (Ok [alice], two_users)
  /\ read_users (Some 1) (Some 1) two_users = (Ok [bob], two_users)
  /\ read_users (Some 0) (Some 2) two_users = (Ok [alice; bob], two_users).
Proof.
  destruct (list_pages_concatenate two_users 0 1 1)
    as [(p1 & p2 & H1 & H2 & H) _]; try lia; try reflexivity.
  injection H1 as <-. injection H2 as <-.
  split; [reflexivity|]. split; [reflexivity | exact H].
Defined.

(** X9. Whatever [skip] and [limit] are, every user that the list of a
    well-formed table contains can be read by its id, and the read
    returns the same record, at the handler and at the endpoint. *)
Theorem listed_users_can_be_read
    (w : World) (skip limit : option Z) (u : User.t) (rows : list User.t) :
  wf w ->
  read_users skip limit w = (Ok rows, w) ->
  u ∈ rows ->
  read_user (User.id u) w = (Ok u, w)
  /\ GET_user (User.id u) w = (Ok (UserResponse.from_attributes u), w)
  /\ UserResponse.from_attributes u ∈ UserResponse.from_attributes <$> rows.
Proof.
  intros Hwf. unfold read_users, select_page.
  destruct (int64 (default 0 skip) && int64 (default 10 limit));
    [|discriminate].
  intros [= <-] Hin.
  assert (Hu : u ∈ users w).
  { eapply elem_of_sublist; [exact Hin | apply sql_page_sublist]. }
  assert (R : read_user (User.id u) w = (Ok u, w))
    by apply (read_user_present w u (wf_user_ids w Hwf) Hu).
  split; [exact R|]. split; [unfold GET_user, response_model; by rewrite R|].
  by apply list_elem_of_fmap_2.
Qed.

Lemma listed_users_can_be_read_witness :
  read_user 2 two_users = (Ok bob, two_users).
Proof.
  assert (Hin : bob ∈ [alice; bob]) by (right; left).
  apply (listed_users_can_be_read two_users None None bob [alice; bob]
           wf_two_users eq_refl Hin).
Defined.

(** ** PDFs: download outcomes *)

(** X10. The download of an id that no row has raises
    [HTTPException(404)] when the id is a signed 64-bit integer and ends
    with the driver's unhandled [OverflowError] when it is not.  For a
    row of a well-formed table the handler does not look at the disk:
    when the file at the row's path exists the client receives its bytes
    with media type [application/pdf] and the row's file name, and when
    it does not the request ends with an unhandled [RuntimeError].  The
    world is unchanged in every case. *)
Theorem download_outcomes (w : World) (k : Z) :
  (k ∉ PDF.id <$> pdfs w ->
     get_pdf k w
     = (Err (if int64 k then HTTPException 404 "PDF not Found"
             else Unhandled OverflowError), w)
     /\ GET_pdf_download k w
        = (Err (if int64 k then HTTPException 404 "PDF not Found"
                else Unhandled OverflowError), w))
  /\ (forall p, wf w -> p ∈ pdfs w -> PDF.id p = k ->
     get_pdf k w
     = (Ok {| FileResponse.path := PDF.storage_path p;
              FileResponse.media_type := "application/pdf";
              FileResponse.filename := PDF.fileName p |}, w)
     /\ GET_pdf_download k w
        = (match storage w !! PDF.storage_path p with
           | Some data =>
               Ok {| Download.content := data;
                     Download.media_type := "application/pdf";
                     Download.filename := PDF.fileName p |}
           | None => Err (Unhandled RuntimeError)
           end, w)).
Proof.
  split.
  - intros H. unfold GET_pdf_download, get_pdf, first_pdf.
    rewrite (select_by_id_absent PDF.id k (pdfs w) H). by destruct (int64 k).
  - intros p Hwf Hin <-.
    unfold GET_pdf_download, get_pdf, first_pdf.
    rewrite (select_by_id_present PDF.id (pdfs w) p (wf_pdf_ids w Hwf) Hin).
    split; [done|]. unfold send_file. simpl.
    by destruct (storage w !! PDF.storage_path p).
Qed.

Lemma download_outcomes_witness :
  GET_pdf_download 5 lost_blob
  = (Err (HTTPException 404 "PDF not Found"), lost_blob)
  /\ GET_pdf_download (-9223372036854775809) lost_blob
     = (Err (Unhandled OverflowError), lost_blob)
  /\ GET_pdf_download 1 lost_blob = (Err (Unhandled RuntimeError), lost_blob).
Proof.
  destruct (download_outcomes lost_blob 5) as [Habs _].
  destruct (download_outcomes lost_blob (-9223372036854775809)) as [Hover _].
  destruct (download_outcomes lost_blob 1) as [_ Hpres].
  split; [|split].
  - apply Habs. simpl. rewrite not_elem_of_cons. split; [lia|].
    apply not_elem_of_nil.
  - apply Hover. simpl. rewrite not_elem_of_cons. split; [lia|].
    apply not_elem_of_nil.
  - assert (Hin : PDF.mk 1 1 "paper.pdf" "storage/6f1c.pdf" ∈ pdfs lost_blob)
      by left.
    assert (Hwf : wf lost_blob).
    { split; simpl; apply (bool_decide_unpack _); by vm_compute. }
    apply (Hpres _ Hwf Hin eq_refl).
Defined.

(** X11. An upload leaves the earlier downloads as they were: when the
    path it writes is the path of no stored row, every download that
    succeeded before the upload gives the same bytes, media type and file
    name after it. *)
Theorem upload_keeps_downloads
    (w : World) (file : UploadFile.t) (file_id : string) (k : Z)
    (d : Download.t) :
  (forall p, p ∈ pdfs w -> PDF.storage_path p <> storage_path_of file_id) ->
  fst (GET_pdf_download k w) = Ok d ->
  fst (GET_pdf_download k (snd (create_pdf file file_id w))) = Ok d.
Proof.
  intros Hpaths. rewrite create_pdf_eq. simpl.
  unfold GET_pdf_download, get_pdf, first_pdf, select_by_id. simpl.
  destruct (find_key PDF.id k (pdfs w)) as [p|] eqn:Hfind;
    [|by destruct (int64 k)].
  rewrite (find_key_app_l PDF.id k (pdfs w) _ p Hfind).
  apply (find_key_Some PDF.id) in Hfind as [Hin _].
  unfold send_file. simpl.
  rewrite lookup_insert_ne.
  - by destruct (storage w !! PDF.storage_path p).
  - intros Heq. by apply (Hpaths p Hin).
Qed.

Lemma upload_keeps_downloads_witness :
  exists w1,
    snd (create_pdf paper "6f1c" empty_world) = w1
    /\ fst (GET_pdf_download 1
              (snd (create_pdf (UploadFile.mk "b.pdf" [x00]) "77aa" w1)))
       = Ok (Download.mk [x25; x50; x44; x46] "application/pdf" "paper.pdf").
Proof.
  eexists. split; [reflexivity|].
  apply upload_keeps_downloads; [|reflexivity].
  intros p Hp. apply list_elem_of_singleton in Hp. subst p. simpl. discriminate.
Defined.

(** ** Passwords in create and update requests *)

Lemma public_rows_ids (l1 l2 : list User.t) :
  Forall2 same_public_user l1 l2 -> User.id <$> l1 = User.id <$> l2.
Proof.
  induction 1 as [|u v l1 l2 (Hid & _) _ IH]; [done|].
  rewrite !fmap_cons. by f_equal.
Qed.

Lemma public_rows_email_taken (e : string) (l1 l2 : list User.t) :
  Forall2 same_public_user l1 l2 -> email_taken e l1 = email_taken e l2.
Proof.
  unfold email_taken. induction 1 as [|u v l1 l2 (_ & _ & Hemail) _ IH]; [done|].
  simpl. by rewrite Hemail, IH.
Qed.

Lemma public_rows_replace (k : Z) (y1 y2 : User.t) (l1 l2 : list User.t) :
  same_public_user y1 y2 -> Forall2 same_public_user l1 l2 ->
  Forall2 same_public_user
    (replace_key User.id k y1 l1) (replace_key User.id k y2 l2).
Proof.
  intros Hy. unfold replace_key.
  induction 1 as [|u v l1 l2 Huv _ IH]; [constructor|].
  rewrite !fmap_cons. constructor; [|done].
  destruct Huv as (Hid & Hrest). rewrite <- Hid.
  destruct (User.id u =? k); [done | by split].
Qed.

(** X12. The password of a create or update request never reaches the
    response: on two worlds that differ at most in stored passwords, two
    create requests (or two update requests for the same id) that agree
    on name and email get the same answer, and the worlds they leave
    still differ at most in stored passwords. *)
Theorem write_responses_hide_password
    (w1 w2 : World) (u1 u2 : UserCreate.t) (k : Z) (b1 b2 : UserUpdate.t) :
  differ_in_passwords w1 w2 ->
  UserCreate.name u1 = UserCreate.name u2 ->
  UserCreate.email u1 = UserCreate.email u2 ->
  UserUpdate.name b1 = UserUpdate.name b2 ->
  UserUpdate.email b1 = UserUpdate.email b2 ->
  fst (POST_users u1 w1) = fst (POST_users u2 w2)
  /\ differ_in_passwords (snd (POST_users u1 w1)) (snd (POST_users u2 w2))
  /\ fst (PUT_user k b1 w1) = fst (PUT_user k b2 w2)
  /\ differ_in_passwords (snd (PUT_user k b1 w1)) (snd (PUT_user k b2 w2)).
Proof.
  intros (Husers & Hpdfs & Hsum & Hsto) Hn He Hbn Hbe.
  assert (Hpost : fst (POST_users u1 w1) = fst (POST_users u2 w2)
                  /\ differ_in_passwords (snd (POST_users u1 w1))
                                         (snd (POST_users u2 w2))).
  { unfold POST_users, response_model, create_user, insert_user.
    rewrite He, (public_rows_email_taken _ _ _ Husers).
    destruct (email_taken (UserCreate.email u2) (users w2)); simpl.
    - by repeat split.
    - rewrite (public_rows_ids _ _ Husers).
      unfold UserResponse.from_attributes. simpl. rewrite Hn.
      split; [done|]. split; [|done]. simpl.
      apply Forall2_app; [done|]. by repeat constructor. }
  destruct Hpost as [Hp1 Hp2]. split; [exact Hp1|]. split; [exact Hp2|].
  pose proof (public_rows_find k _ _ Husers) as Hfind.
  unfold PUT_user, response_model, update_user, first_user, select_by_id.
  destruct Hfind as [old1 old2 (Hid & Hname & Hemail)|];
    [|destruct (int64 k); by repeat split].
  unfold update_user_row. simpl.
  rewrite Hbn, Hbe, Hid, Hname, Hemail.
  rewrite (public_rows_email_taken _ _ _
             (public_rows_delete (User.id old2) _ _ Husers)).
  destruct (negb _ && _); simpl; [by repeat split|].
  unfold UserResponse.from_attributes. simpl.
  split; [done|]. split; [|done]. simpl.
  apply public_rows_replace; [by repeat split | done].
Qed.

Lemma write_responses_hide_password_witness :
  fst (POST_users (UserCreate.mk "C" "c@x.com" "one") two_users)
  = fst (POST_users (UserCreate.mk "C" "c@x.com" "two") two_users_other_passwords)
  /\ fst (PUT_user 1 (UserUpdate.mk (Some "N") None (Some "one")) two_users)
     = fst (PUT_user 1 (UserUpdate.mk (Some "N") None None)
              two_users_other_passwords).
Proof.
  assert (H : differ_in_passwords two_users two_users_other_passwords).
  { split; [|done]. repeat constructor. }
  destruct (write_responses_hide_password two_users two_users_other_passwords
              (UserCreate.mk "C" "c@x.com" "one")
              (UserCreate.mk "C" "c@x.com" "two") 1
              (UserUpdate.mk (Some "N") None (Some "one"))
              (UserUpdate.mk (Some "N") None None)
              H eq_refl eq_refl eq_refl eq_refl) as (Hp & _ & Hu & _).
  split; [exact Hp | exact Hu].
Defined.

(** ** Sequences of requests *)

Lemma GET_pdf_download_world (k : Z) (w : World) :
  snd (GET_pdf_download k w) = w.
Proof.
  unfold GET_pdf_download, get_pdf, send_file.
  destruct (first_pdf k w) as [p| |]; [|done..]. simpl.
  by destruct (storage w !! PDF.storage_path p).
Qed.

Lemma read_users_world (skip limit : option Z) (w : World) :
  snd (read_users skip limit w) = w.
Proof. unfold read_users. by destruct (select_page _ _ _). Qed.

Lemma read_pdfs_world (skip limit : option Z) (w : World) :
  snd (read_pdfs skip limit w) = w.
Proof. unfold read_pdfs. by destruct (select_page _ _ _). Qed.

Lemma read_user_world (k : Z) (w : World) : snd (read_user k w) = w.
Proof. unfold read_user. by destruct (first_user k w). Qed.

Lemma read_pdf_world (k : Z) (w : World) : snd (read_pdf k w) = w.
Proof. unfold read_pdf. by destruct (first_pdf k w). Qed.

(** Only an upload touches [pdfs] or the blob directory, and no request
    touches [summaries]. *)
Lemma serve_frame (r : Request) (w : World) :
  summaries (serve r w) = summaries w
  /\ ((pdfs (serve r w) = pdfs w /\ storage (serve r w) = storage w)
      \/ exists file file_id,
           r = PostPdfUpload file file_id
           /\ serve r w = snd (create_pdf file file_id w)).
Proof.
  destruct r; cbn [serve].
  - unfold create_user, insert_user.
    destruct (email_taken _ _); simpl; (split; [done|]); by left.
  - rewrite read_users_world. split; [done|]. by left.
  - rewrite read_user_world. split; [done|]. by left.
  - unfold update_user. destruct (first_user user_id w) as [old| |];
      [|split; [done|]; by left..].
    unfold update_user_row. destruct (negb _ && _); simpl;
      (split; [done|]); by left.
  - unfold delete_user. destruct (first_user user_id w);
      (split; [done|]); by left.
  - split; [done|]. right. by exists file, file_id.
  - rewrite read_pdfs_world. split; [done|]. by left.
  - rewrite read_pdf_world. split; [done|]. by left.
  - rewrite GET_pdf_download_world. split; [done|]. by left.
  - split; [done|]. by left.
  - split; [done|]. by left.
Qed.

Lemma serve_wf (r : Request) (w : World) : wf w -> wf (serve r w).
Proof.
  intros Hwf. destruct r; cbn [serve]; try done.
  - destruct (create_user user w) as [res w'] eqn:E.
    by apply (wf_create_user w w' user res).
  - by rewrite read_users_world.
  - by rewrite read_user_world.
  - destruct (update_user user_id user w) as [res w'] eqn:E.
    by apply (wf_update_user w w' user_id user res).
  - destruct (delete_user user_id user w) as [res w'] eqn:E.
    by apply (wf_delete_user w w' user_id user res).
  - destruct (create_pdf file file_id w) as [res w'] eqn:E.
    by apply (wf_create_pdf w w' file file_id res).
  - by rewrite read_pdfs_world.
  - by rewrite read_pdf_world.
  - by rewrite GET_pdf_download_world.
Qed.

Lemma serve_blobs_present (r : Request) (w : World) :
  blobs_present w -> blobs_present (serve r w).
Proof.
  intros Hb. destruct (serve_frame r w) as [_ [[Hp Hs]|(file & file_id & -> & E)]].
  - intros p. rewrite Hp, Hs. apply Hb.
  - rewrite E, create_pdf_eq. simpl. intros p Hp. simpl in *.
    apply lookup_insert_is_Some'.
    apply elem_of_app in Hp as [Hp|Hp]; [right; by apply Hb|].
    apply list_elem_of_singleton in Hp. subst p. by left.
Qed.

Lemma serve_uploaded_rows (r : Request) (w : World) :
  uploaded_rows w -> uploaded_rows (serve r w).
Proof.
  intros Hu. destruct (serve_frame r w) as [_ [[Hp Hs]|(file & file_id & -> & E)]].
  - intros p. rewrite Hp. apply Hu.
  - rewrite E, create_pdf_eq. simpl. intros p Hp. simpl in *.
    apply elem_of_app in Hp as [Hp|Hp]; [by apply Hu|].
    apply list_elem_of_singleton in Hp. subst p. simpl.
    split; [done|]. by exists file_id.
Qed.

Lemma run_cons (r : Request) (rs : list Request) (w : World) :
  run (r :: rs) w = run rs (serve r w).
Proof. reflexivity. Qed.

(** X13. The handlers keep the tables well formed: after any sequence of
    requests on a world in which user ids, user emails and PDF ids are
    unique, they are still unique; in particular no sequence of requests
    on the empty database ever stores two users with one email. *)
Theorem run_keeps_wf (rs : list Request) (w : World) :
  wf w -> wf (run rs w).
Proof.
  revert w. induction rs as [|r rs IH]; intros w Hwf; [done|].
  rewrite run_cons. apply IH. by apply serve_wf.
Qed.

Lemma run_keeps_wf_witness :
  wf (run [PostUsers (UserCreate.mk "A" "a@x.com" "p");
           PostUsers (UserCreate.mk "B" "a@x.com" "q");
           PutUser 1 (UserUpdate.mk None (Some "b@x.com") None);
           PostPdfUpload paper "6f1c";
           DeleteUser 1 (UserUpdate.mk None None None)] empty_world).
Proof. apply run_keeps_wf. apply wf_empty_world. Defined.

(** X14. No request ever writes the [summaries] table, no request ever
    changes or removes a row of [pdfs], and no request ever removes a
    file: after any sequence of requests [summaries] is as it was, the
    old [pdfs] table is a prefix of the new one, and every path that held
    a file still holds one. *)
Theorem run_only_appends_pdfs (rs : list Request) (w : World) :
  summaries (run rs w) = summaries w
  /\ pdfs w `prefix_of` pdfs (run rs w)
  /\ dom (storage w) ⊆ dom (storage (run rs w)).
Proof.
  revert w. induction rs as [|r rs IH]; intros w; [done|].
  rewrite run_cons. destruct (IH (serve r w)) as (Hs & Hp & Hd).
  destruct (serve_frame r w) as [Hsum [[Hp' Hs']|(file & file_id & -> & E)]].
  - rewrite Hs, Hsum. split; [done|]. rewrite <- Hp', <- Hs'. by split.
  - rewrite Hs, Hsum. split; [done|].
    rewrite E in Hp, Hd. rewrite create_pdf_eq in Hp, Hd. simpl in Hp, Hd.
    split.
    + etrans; [|exact Hp]. by apply prefix_app_r.
    + etrans; [|exact Hd]. rewrite dom_insert. apply union_subseteq_r.
Qed.

(** X15. In every world reached from the empty database by requests
    alone, each row of [pdfs] has its file.  So a download never ends
    with the unhandled [RuntimeError] (that needs a file removed from
    outside), and for an id that is a signed 64-bit integer it either
    raises [HTTPException(404)], for an id that no row has, or
    succeeds. *)
Theorem run_downloads_never_break (rs : list Request) (k : Z) :
  blobs_present (run rs empty_world)
  /\ fst (GET_pdf_download k (run rs empty_world))
     <> Err (Unhandled RuntimeError)
  /\ (int64 k = true ->
      GET_pdf_download k (run rs empty_world)
      = (Err (HTTPException 404 "PDF not Found"), run rs empty_world)
      \/ exists d, GET_pdf_download k (run rs empty_world)
                   = (Ok d, run rs empty_world)).
Proof.
  assert (Hb : forall w, blobs_present w -> blobs_present (run rs w)).
  { induction rs as [|r rs IH]; intros w Hw; [done|].
    rewrite run_cons. apply IH. by apply serve_blobs_present. }
  assert (H0 : blobs_present empty_world).
  { intros p Hp. by apply elem_of_nil in Hp. }
  specialize (Hb empty_world H0). split; [exact Hb|].
  set (w := run rs empty_world) in *.
  unfold GET_pdf_download, get_pdf, first_pdf, select_by_id.
  destruct (find_key PDF.id k (pdfs w)) as [p|] eqn:Hfind.
  - apply (find_key_Some PDF.id) in Hfind as [Hin _].
    destruct (Hb p Hin) as [data Hdata]. unfold send_file. simpl.
    rewrite Hdata. split; [done|]. intros _. right. by eexists.
  - split; [by destruct (int64 k)|]. intros ->. by left.
Qed.

Lemma run_downloads_never_break_witness :
  GET_pdf_download 2 (run [PostPdfUpload paper "6f1c"] empty_world)
  = (Err (HTTPException 404 "PDF not Found"),
     run [PostPdfUpload paper "6f1c"] empty_world)
  \/ exists d, GET_pdf_download 2 (run [PostPdfUpload paper "6f1c"] empty_world)
               = (Ok d, run [PostPdfUpload paper "6f1c"] empty_world).
Proof.
  destruct (run_downloads_never_break [PostPdfUpload paper "6f1c"] 2)
    as (_ & _ & H).
  apply H. reflexivity.
Defined.

(** X16. Every PDF row that requests can create belongs to user 1 and
    points into [storage/]: in every world reached from the empty
    database, each row of [pdfs] has [user_id = 1] and a path of the form
    [storage/<identifier>.pdf]. *)
Theorem run_pdf_rows_owned_by_1 (rs : list Request) (p : PDF.t) :
  p ∈ pdfs (run rs empty_world) ->
  PDF.user_id p = 1
  /\ exists file_id, PDF.storage_path p = "storage/" +:+ file_id +:+ ".pdf".
Proof.
  assert (Hu : forall w, uploaded_rows w -> uploaded_rows (run rs w)).
  { induction rs as [|r rs IH]; intros w Hw; [done|].
    rewrite run_cons. apply IH. by apply serve_uploaded_rows. }
  assert (H0 : uploaded_rows empty_world).
  { intros q Hq. by apply elem_of_nil in Hq. }
  intros Hp. apply (Hu empty_world H0 p Hp).
Qed.

Lemma run_pdf_rows_owned_by_1_witness :
  PDF.mk 1 1 "paper.pdf" "storage/6f1c.pdf"
    ∈ pdfs (run [PostUsers (UserCreate.mk "A" "a@x.com" "p");
                 PostPdfUpload paper "6f1c"; GetPdfDownload 1] empty_world)
  /\ PDF.user_id (PDF.mk 1 1 "paper.pdf" "storage/6f1c.pdf") = 1.
Proof.
  assert (Hin : PDF.mk 1 1 "paper.pdf" "storage/6f1c.pdf"
                  ∈ pdfs (run [PostUsers (UserCreate.mk "A" "a@x.com" "p");
                               PostPdfUpload paper "6f1c"; GetPdfDownload 1]
                            empty_world)) by left.
  split; [exact Hin|].
  apply (run_pdf_rows_owned_by_1 _ _ Hin).
Defined.

(** ** PDFs: metadata after an upload, and users that go away *)


(** X18. Deleting a user does not touch the PDFs: [user_id] is no foreign
    key and the handler deletes nothing else, so after a delete every row
    of [pdfs] and every file are still there and each download answers
    what it answered before. *)
Theorem delete_user_keeps_pdfs
    (w : World) (k : Z) (body : UserUpdate.t) (id : Z) :
  pdfs (snd (delete_user k body w)) = pdfs w
  /\ storage (snd (delete_user k body w)) = storage w
  /\ fst (read_pdf id (snd (delete_user k body w))) = fst (read_pdf id w)
  /\ fst (GET_pdf_download id (snd (delete_user k body w)))
     = fst (GET_pdf_download id w).
Proof.
  unfold delete_user. destruct (first_user k w) as [u| |]; [|done..]. simpl.
  repeat split.
  - unfold read_pdf, first_pdf. simpl.
    by destruct (select_by_id PDF.id id (pdfs w)).
  - unfold GET_pdf_download, get_pdf, first_pdf, send_file. simpl.
    destruct (select_by_id PDF.id id (pdfs w)) as [p| |]; [|done..]. simpl.
    by destruct (storage w !! PDF.storage_path p).
Qed.

(** ** The rowids that requests produce *)

Lemma next_rowid_within (ids : list Z) (n : Z) :
  0 <= n -> (forall k, k ∈ ids -> 1 <= k <= n) ->
  1 <= next_rowid ids <= n + 1.
Proof.
  intros Hn Hall. destruct ids as [|i rest]; simpl; [lia|].
  assert (H : 1 <= foldr Z.max i rest <= n); [|lia].
  assert (Hi : 1 <= i <= n) by (apply Hall; left).
  assert (Hrest : forall k, k ∈ rest -> 1 <= k <= n)
    by (intros k Hk; apply Hall; by right).
  clear Hall. induction rest as [|j rest IH]; simpl; [done|].
  assert (1 <= j <= n) by (apply Hrest; left).
  assert (1 <= foldr Z.max i rest <= n)
    by (apply IH; intros k Hk; apply Hrest; by right).
  lia.
Qed.

Lemma serve_ids_within (r : Request) (n : Z) (w : World) :
  0 <= n -> ids_within n w -> ids_within (n + 1) (serve r w).
Proof.
  intros Hn [Hu Hp].
  assert (Hu' : forall k, k ∈ User.id <$> users w -> 1 <= k <= n + 1)
    by (intros k Hk; specialize (Hu k Hk); lia).
  assert (Hp' : forall k, k ∈ PDF.id <$> pdfs w -> 1 <= k <= n + 1)
    by (intros k Hk; specialize (Hp k Hk); lia).
  assert (Hmono : ids_within (n + 1) w) by by split.
  destruct r; cbn [serve];
    rewrite ?read_users_world, ?read_user_world, ?read_pdfs_world,
      ?read_pdf_world, ?GET_pdf_download_world; try done.
  - unfold create_user, insert_user.
    destruct (email_taken _ _); [done|]. split; simpl; [|exact Hp'].
    intros k. rewrite fmap_app, elem_of_app. intros [Hk|Hk]; [by apply Hu'|].
    apply list_elem_of_singleton in Hk. subst k. simpl.
    by apply next_rowid_within.
  - unfold update_user. destruct (first_user user_id w) as [old| |]; [|done..].
    unfold update_user_row. destruct (negb _ && _); [done|].
    split; simpl; [|exact Hp'].
    by rewrite (replace_key_keys User.id).
  - unfold delete_user. destruct (first_user user_id w); [|done..].
    split; simpl; [|exact Hp']. intros k Hk. apply Hu'.
    eapply elem_of_sublist; [exact Hk|].
    apply fmap_sublist, without_key_sublist.
  - rewrite create_pdf_eq. split; simpl; [exact Hu'|].
    intros k. rewrite fmap_app, elem_of_app. intros [Hk|Hk]; [by apply Hp'|].
    apply list_elem_of_singleton in Hk. subst k. simpl.
    by apply next_rowid_within.
Qed.

(** After [n] requests on the empty database every stored rowid lies
    between 1 and [n]. *)
Lemma run_ids_within (rs : list Request) :
  ids_within (Z.of_nat (length rs)) (run rs empty_world).
Proof.
  assert (H : forall n w, 0 <= n -> ids_within n w ->
                ids_within (n + Z.of_nat (length rs)) (run rs w)).
  { induction rs as [|r rs IH]; intros n w Hn Hw.
    - simpl. by rewrite Z.add_0_r.
    - rewrite run_cons. cbn [length]. rewrite Nat2Z.inj_succ.
      replace (n + Z.succ (Z.of_nat (length rs)))
        with (n + 1 + Z.of_nat (length rs)) by lia.
      apply IH; [lia|]. by apply serve_ids_within. }
  apply (H 0 empty_world); [lia|].
  split; intros k Hk; by apply elem_of_nil in Hk.
Qed.

(** So, short of 2^63 requests, the overflow of a query concerns only ids
    that no row holds: selecting is binding the id first and looking it
    up afterwards. *)
Lemma run_select_bind_first (rs : list Request) (k : Z) :
  Z.of_nat (length rs) < 2 ^ 63 ->
  first_user k (run rs empty_world)
  = (if int64 k
     then match find_key User.id k (users (run rs empty_world)) with
          | Some u => Row u
          | None => NoRow
          end
     else BindOverflow)
  /\ first_pdf k (run rs empty_world)
     = (if int64 k
        then match find_key PDF.id k (pdfs (run rs empty_world)) with
             | Some p => Row p
             | None => NoRow
             end
        else BindOverflow).
Proof.
  intros Hlen. destruct (run_ids_within rs) as [Hu Hp].
  split; apply select_by_id_bind_first; apply Forall_forall; intros x Hx;
    apply int64_spec.
  - specialize (Hu (User.id x) (list_elem_of_fmap_2 _ _ _ Hx)). lia.
  - specialize (Hp (PDF.id x) (list_elem_of_fmap_2 _ _ _ Hx)). lia.
Qed.
